(** * region.py: rectangles and tracked regions of a video frame

    A shallow embedding of [src/region.py] (classes [Rectangle] and [Region],
    and the module-level helpers [eucl_distance] and [calculate_variance]),
    followed by the properties of the specification that were checked
    against it.

    Conventions of the embedding:
    - the coordinates [x], [y], [width], [height] are Python ints, hence [Z];
    - the true division [/] of Python 3 and numpy's floating point results
      are exact rationals ([Q]); rounding is not represented;
    - the attributes a caller may fill with any Python object ([mass],
      [frame_number], [pixel_variance], [blank]) hold a dynamic value [PyVal];
    - a method that mutates [self] is a function returning the new object;
    - a call that can raise returns a [Result]. *)

From Stdlib Require Import ZArith QArith Qabs Qround Qfield Lia String List Bool.
From stdpp Require Import gmap strings list.

Local Open Scope Z_scope.

(** ** Python values, exceptions and the error monad *)

(** The dynamic values a region attribute or a decoded JSON field can hold. *)
Inductive PyVal : Type :=
| PyNone
| PyBool (b : bool)
| PyInt (z : Z)
| PyFloat (q : Q).

(** What ends a call abnormally.  [Unmodelled] is not a Python exception: it
    marks an input on which the embedding does not follow Python (numpy
    broadcasting, nan, coordinates that are not ints). *)
Inductive PyExc : Type :=
| AssertionError (msg : string)
| NameError (name : string)
| KeyError (key : string)
| IndexError
| TypeError
| Unmodelled (what : string).

Inductive Result (A : Type) : Type :=
| Ok (a : A)
| Raise (e : PyExc).
Arguments Ok {A} a.
Arguments Raise {A} e.

#[global] Instance Result_ret : MRet Result := fun A a => Ok a.

#[global] Instance Result_bind : MBind Result := fun A B k m =>
  match m with
  | Ok a => k a
  | Raise e => Raise e
  end.

(** [assert cond, msg] *)
Definition py_assert (cond : bool) (msg : string) : Result unit :=
  if cond then Ok tt else Raise (AssertionError msg).

(** Truth value of an object, as [if obj] and [obj or ...] test it. *)
Definition truthy (v : PyVal) : bool :=
  match v with
  | PyNone => false
  | PyBool b => b
  | PyInt z => negb (z =? 0)
  | PyFloat q => negb (Qeq_bool q 0)
  end.

(** [int(q)]: truncation towards zero. *)
Definition py_int (q : Q) : Z := Z.quot (Qnum q) (Z.pos (Qden q)).

(** ** Module scope of region.py

    The names bound at the top level of the file, in order: the three
    imports, then the classes and functions it defines. *)
Definition module_globals : list string :=
  ["attr"; "logging"; "np"; "Rectangle"; "eucl_distance";
   "calculate_variance"; "Region"]%string.

(** Looking up a global name that the module never binds (and that is not a
    builtin) raises [NameError]. *)
Definition load_global (name : string) : Result unit :=
  if existsb (String.eqb name) module_globals then Ok tt
  else Raise (NameError name).

(** ** numpy *)

(** [np.uint16] keeps the low 16 bits. *)
Definition wrap16 (z : Z) : Z := z mod 65536.

(** Conversion of one element of the list given to [np.uint16(...)]. *)
Definition to_uint16 (v : PyVal) : Result Z :=
  match v with
  | PyNone => Raise TypeError
  | PyBool b => Ok (if b then 1 else 0)
  | PyInt z => Ok (wrap16 z)
  | PyFloat q => Ok (wrap16 (py_int q))
  end.

(** A two-dimensional array: its [shape] is (rows, columns) and [pixels]
    holds the rows one after the other. *)
Record ndarray : Type := mk_ndarray {
  shape : Z * Z;
  pixels : list Q
}.

(** [np.abs(a - b)] for arrays of one shape. *)
Definition np_abs_sub (a b : ndarray) : Result (list Q) :=
  if decide (shape a = shape b)
  then Ok (zip_with (fun p q => Qabs (p - q)) (pixels a) (pixels b))
  else Raise (Unmodelled "broadcasting of arrays of different shapes").

Definition Qsum (l : list Q) : Q := fold_right Qplus 0%Q l.

Definition np_mean (l : list Q) : Q :=
  (Qsum l / inject_Z (Z.of_nat (length l)))%Q.

(** [np.var(a)]: the mean of the squared deviations from the mean. *)
Definition np_var (l : list Q) : Result Q :=
  match l with
  | [] => Raise (Unmodelled "nan: variance of an empty array")
  | _ =>
      let m := np_mean l in
      Ok (np_mean (map (fun p => ((p - m) * (p - m))%Q) l))
  end.

(** An index of a slice [start:stop] on an axis of length [n]: a negative
    index counts from the end, and the result is clipped to [[0, n]]. *)
Definition slice_index (n i : Z) : Z :=
  if i <? 0 then Z.max 0 (i + n) else Z.min i n.

(** [image[r_start:r_stop, c_start:c_stop]]: the rows and columns of the two
    slices, an empty range when a slice stops before it starts. *)
Definition slice_2d (image : ndarray) (r_start r_stop c_start c_stop : Z) : ndarray :=
  let '(rows, cols) := shape image in
  let r0 := slice_index rows r_start in
  let r1 := slice_index rows r_stop in
  let c0 := slice_index cols c_start in
  let c1 := slice_index cols c_stop in
  let n_rows := Z.max 0 (r1 - r0) in
  let n_cols := Z.max 0 (c1 - c0) in
  mk_ndarray (n_rows, n_cols)
    (r ← seqZ r0 n_rows;
     take (Z.to_nat n_cols) (drop (Z.to_nat (r * cols + c0)) (pixels image))).

(** [round(v, 2)].  An int is returned as it is and [None] has no
    [__round__]; a float goes to the nearest multiple of 1/100, a tie to the
    even one. *)
Definition round_half_even (q : Q) : Z :=
  let f := Qfloor q in
  match Qcompare (q - inject_Z f) (1 # 2) with
  | Lt => f
  | Gt => f + 1
  | Eq => if Z.even f then f else f + 1
  end.

Definition py_round2 (v : PyVal) : Result PyVal :=
  match v with
  | PyNone => Raise TypeError
  | PyBool b => Ok (PyInt (if b then 1 else 0))
  | PyInt z => Ok (PyInt z)
  | PyFloat q => Ok (PyFloat (inject_Z (round_half_even (q * 100)) / 100))
  end.

(** ** class Rectangle *)

Module Rectangle.

Record t : Type := mk { x : Z; y : Z; width : Z; height : Z }.

Definition from_ltrb (left top right bottom : Z) : t :=
  mk left top (right - left) (bottom - top).

Definition copy (self : t) : t :=
  mk (x self) (y self) (width self) (height self).

Definition mid_x (self : t) : Q :=
  (inject_Z (x self) + inject_Z (width self) / 2)%Q.

Definition mid_y (self : t) : Q :=
  (inject_Z (y self) + inject_Z (height self) / 2)%Q.

Definition mid (self : t) : Q * Q := (mid_x self, mid_y self).

Definition left (self : t) : Z := x self.
Definition top (self : t) : Z := y self.
Definition right (self : t) : Z := x self + width self.
Definition bottom (self : t) : Z := y self + height self.

Definition to_ltrb (self : t) : list Z :=
  [left self; top self; right self; bottom self].

Definition to_ltwh (self : t) : list Z :=
  [left self; top self; width self; height self].

(** [self.x = value], [self.y = value] *)
Definition set_x (self : t) (value : Z) : t :=
  mk value (y self) (width self) (height self).
Definition set_y (self : t) (value : Z) : t :=
  mk (x self) value (width self) (height self).

(** [@right.setter] *)
Definition set_right (self : t) (value : Z) : t :=
  mk (x self) (y self) (value - x self) (height self).

(** [@bottom.setter] *)
Definition set_bottom (self : t) (value : Z) : t :=
  mk (x self) (y self) (width self) (value - y self).

(** [@left.setter] *)
Definition set_left (self : t) (value : Z) : t :=
  let old_right := right self in
  let self := set_x self value in
  set_right self old_right.

(** [@top.setter] *)
Definition set_top (self : t) (value : Z) : t :=
  let old_bottom := bottom self in
  let self := set_y self value in
  set_bottom self old_bottom.

Definition overlap_area (self other : t) : Z :=
  let x_overlap :=
    Z.max 0 (Z.min (right self) (right other) - Z.max (left self) (left other)) in
  let y_overlap :=
    Z.max 0 (Z.min (bottom self) (bottom other) - Z.max (top self) (top other)) in
  x_overlap * y_overlap.

Definition crop (self bounds : t) : t :=
  let self := set_left self (Z.min (right bounds) (Z.max (left self) (left bounds))) in
  let self := set_top self (Z.min (bottom bounds) (Z.max (top self) (top bounds))) in
  let self := set_right self (Z.max (left bounds) (Z.min (right self) (right bounds))) in
  set_bottom self (Z.max (top bounds) (Z.min (bottom self) (bottom bounds))).

(** [enlarge(border, max=None)]; [if max:] is true for every rectangle
    object, the class defining neither [__bool__] nor [__len__]. *)
Definition enlarge (self : t) (border : Z) (max : option t) : t :=
  let self := set_left self (left self - border) in
  let self := set_right self (right self + border) in
  let self := set_top self (top self - border) in
  let self := set_bottom self (bottom self + border) in
  match max with
  | Some bounds => crop self bounds
  | None => self
  end.

Definition area (self : t) : Z := width self * height self.

(** [image[top : top + height, left : left + width]] *)
Definition subimage (self : t) (image : ndarray) : ndarray :=
  slice_2d image (top self) (top self + height self)
                 (left self) (left self + width self).

End Rectangle.

(** ** Module-level functions *)

Definition eucl_distance (first second : Q * Q) : Q :=
  let first_sq := (fst first - fst second)%Q in
  let first_sq := (first_sq * first_sq)%Q in
  let second_sq := (snd first - snd second)%Q in
  let second_sq := (second_sq * second_sq)%Q in
  (first_sq + second_sq)%Q.

(** [calculate_variance(filtered, prev_filtered)]; the bare [return] of the
    first branch returns [None]. *)
Definition calculate_variance (filtered : ndarray) (prev_filtered : option ndarray)
  : Result PyVal :=
  match prev_filtered with
  | None => mret PyNone
  | Some prev =>
      delta_frame ← np_abs_sub filtered prev;
      v ← np_var delta_frame;
      mret (PyFloat v)
  end.

(** Modelled from the spec: the helper [tools.calculate_mass], which
    [Rectangle.calculate_mass] calls but region.py neither defines nor
    imports.  It "counts pixels in buffer exceeding threshold". *)
Definition tools_calculate_mass (filtered : ndarray) (threshold : Q) : Z :=
  Z.of_nat (length (List.filter (fun p => negb (Qle_bool p threshold)) (pixels filtered))).

(** ** Sequences decoded by [region_from_array] *)

(** The elements are Python ints (a list or tuple) or the items of a
    [np.uint16] array, whose arithmetic wraps around. *)
Inductive dtype : Type := py_ints | uint16.

Record IntSeq : Type := mk_seq { dt : dtype; elems : list Z }.

Definition item (s : IntSeq) (i : nat) : Result Z :=
  match elems s !! i with
  | Some v => Ok v
  | None => Raise IndexError
  end.

Definition len (s : IntSeq) : Z := Z.of_nat (length (elems s)).

Definition item_sub (d : dtype) (a b : Z) : Z :=
  match d with
  | py_ints => a - b
  | uint16 => wrap16 (a - b)
  end.

(** ** Dictionaries decoded from JSON *)

(** [d[key]] *)
Definition getitem (d : gmap string PyVal) (key : string) : Result PyVal :=
  match d !! key with
  | Some v => Ok v
  | None => Raise (KeyError key)
  end.

(** [d.get(key, default)]; [d.get(key)] is [dict_get d key PyNone]. *)
Definition dict_get (d : gmap string PyVal) (key : string) (default : PyVal) : PyVal :=
  match d !! key with
  | Some v => v
  | None => default
  end.

(** A coordinate read from JSON is kept when it is an int. *)
Definition coordinate (v : PyVal) : Result Z :=
  match v with
  | PyInt z => Ok z
  | _ => Raise (Unmodelled "coordinate that is not an int")
  end.

(** ** class Region(Rectangle) *)

Module Region.

(** The inherited rectangle is the field [rect]; the other fields are the
    attributes the subclass adds, in the order of the class body. *)
Record t : Type := mk {
  rect : Rectangle.t;
  mass : PyVal;
  frame_number : PyVal;
  pixel_variance : PyVal;
  id : Z;
  was_cropped : bool;
  blank : PyVal;
  is_along_border : bool
}.

(** The [attr.ib(default=...)] of each attribute. *)
Definition default_mass : PyVal := PyInt 0.
Definition default_frame_number : PyVal := PyInt 0.
Definition default_pixel_variance : PyVal := PyInt 0.
Definition default_id : Z := 0.
Definition default_was_cropped : bool := false.
Definition default_blank : PyVal := PyBool false.
Definition default_is_along_border : bool := false.

(** [Region(x, y, width, height)], every other attribute left out. *)
Definition new (x y width height : Z) : t :=
  mk (Rectangle.mk x y width height) default_mass default_frame_number
     default_pixel_variance default_id default_was_cropped default_blank
     default_is_along_border.

(** Attribute assignments. *)
Definition set_rect (self : t) (r : Rectangle.t) : t :=
  mk r (mass self) (frame_number self) (pixel_variance self) (id self)
     (was_cropped self) (blank self) (is_along_border self).
Definition set_mass (self : t) (v : PyVal) : t :=
  mk (rect self) v (frame_number self) (pixel_variance self) (id self)
     (was_cropped self) (blank self) (is_along_border self).
Definition set_pixel_variance (self : t) (v : PyVal) : t :=
  mk (rect self) (mass self) (frame_number self) v (id self)
     (was_cropped self) (blank self) (is_along_border self).
Definition set_was_cropped (self : t) (b : bool) : t :=
  mk (rect self) (mass self) (frame_number self) (pixel_variance self) (id self)
     b (blank self) (is_along_border self).
Definition set_flag_is_along_border (self : t) (b : bool) : t :=
  mk (rect self) (mass self) (frame_number self) (pixel_variance self) (id self)
     (was_cropped self) (blank self) b.

(** Inherited attributes and properties. *)
Definition x (self : t) : Z := Rectangle.x (rect self).
Definition y (self : t) : Z := Rectangle.y (rect self).
Definition width (self : t) : Z := Rectangle.width (rect self).
Definition height (self : t) : Z := Rectangle.height (rect self).
Definition left (self : t) : Z := Rectangle.left (rect self).
Definition top (self : t) : Z := Rectangle.top (rect self).
Definition right (self : t) : Z := Rectangle.right (rect self).
Definition bottom (self : t) : Z := Rectangle.bottom (rect self).
Definition mid_x (self : t) : Q := Rectangle.mid_x (rect self).
Definition mid_y (self : t) : Q := Rectangle.mid_y (rect self).

(** Inherited methods that mutate the rectangle. *)
Definition crop (self : t) (bounds : Rectangle.t) : t :=
  set_rect self (Rectangle.crop (rect self) bounds).
Definition enlarge (self : t) (border : Z) (max : option Rectangle.t) : t :=
  set_rect self (Rectangle.enlarge (rect self) border max).

(** [calculate_mass] is written in the body of [Rectangle] and assigns
    [self.mass]; it is embedded on regions, which have that attribute.
    The name [tools] is looked up in the module scope when line 68 runs. *)
Definition calculate_mass (self : t) (filtered : ndarray) (threshold : Q) : Result t :=
  let '(height_, width_) := shape filtered in
  py_assert ((width_ =? width self) && (height_ =? height self))
    "calculating variance on incorrectly sized filtered";;
  load_global "tools";;
  mret (set_mass self (PyInt (tools_calculate_mass filtered threshold))).


Definition from_ltwh (left top width height : Z) : t :=
  new left top width height.

Definition from_ltrb (left top right bottom : Z) : t :=
  new left top (right - left) (bottom - top).

(** The result is the content of the [np.uint16] array. *)
Definition to_array (self : t) : Result (list Z) :=
  mapM to_uint16
    [PyInt (left self); PyInt (top self); PyInt (right self);
     PyInt (bottom self); frame_number self; mass self;
     PyInt (if truthy (blank self) then 1 else 0)].

Definition region_from_array (region_bounds : IntSeq) : Result t :=
  let d := dt region_bounds in
  b2 ← item region_bounds 2;
  b0 ← item region_bounds 0;
  let width := item_sub d b2 b0 in
  b3 ← item region_bounds 3;
  b1 ← item region_bounds 1;
  let height := item_sub d b3 b1 in
  frame_number ←
    (if 4 <? len region_bounds
     then v ← item region_bounds 4; mret (Some v)
     else mret None);
  mass ←
    (if 5 <? len region_bounds
     then v ← item region_bounds 5; mret (PyInt v)
     else mret (PyInt 0));
  blank ←
    (if 6 <? len region_bounds
     then v ← item region_bounds 6; mret (PyBool (v =? 1))
     else mret (PyBool false));
  mret (mk (Rectangle.mk b0 b1 width height)
           mass
           (match frame_number with
            | Some v => PyInt (wrap16 v)
            | None => PyNone
            end)
           default_pixel_variance default_id default_was_cropped
           blank
           default_is_along_border).

Definition region_from_json (region_json : gmap string PyVal) : Result t :=
  let frame := dict_get region_json "frame_number" PyNone in
  let frame :=
    match frame with
    | PyNone => dict_get region_json "frameNumber" PyNone
    | _ => frame
    end in
  let frame :=
    match frame with
    | PyNone => dict_get region_json "order" PyNone
    | _ => frame
    end in
  x ← getitem region_json "x" ≫= coordinate;
  y ← getitem region_json "y" ≫= coordinate;
  width ← getitem region_json "width" ≫= coordinate;
  height ← getitem region_json "height" ≫= coordinate;
  mret (mk (Rectangle.mk x y width height)
           (dict_get region_json "mass" (PyInt 0))
           frame
           (dict_get region_json "pixel_variance" (PyInt 0))
           default_id default_was_cropped
           (dict_get region_json "blank" (PyBool false))
           default_is_along_border).

Definition has_moved (self region : t) : bool :=
  (negb (x self =? x region) && negb (right self =? right region))
  || (negb (y self =? y region) && negb (bottom self =? bottom region)).

Definition calculate_variance (self : t) (filtered : ndarray)
    (prev_filtered : option ndarray) : Result t :=
  let '(height_, width_) := shape filtered in
  py_assert ((width_ =? width self) && (height_ =? height self))
    "calculating variance on incorrectly sized filtered";;
  v ← calculate_variance filtered prev_filtered;
  mret (set_pixel_variance self v).

(** [set_is_along_border(bounds, edge=0)] *)
Definition default_edge : Z := 0.

Definition set_is_along_border (self : t) (bounds : Rectangle.t) (edge : Z) : t :=
  set_flag_is_along_border self
    (was_cropped self
     || (x self <=? Rectangle.x bounds + edge)
     || (y self <=? Rectangle.y bounds + edge)
     || (right self >=? Rectangle.width bounds - edge)
     || (bottom self >=? Rectangle.height bounds - edge)).

Definition copy (self : t) : t :=
  mk (Rectangle.mk (x self) (y self) (width self) (height self))
     (mass self) (frame_number self) (pixel_variance self) (id self)
     (was_cropped self) (blank self) (is_along_border self).

Definition average_distance (self other : t) : list Q :=
  let distances : list Q := [] in
  let expected_x := py_int (inject_Z (x other)) in
  let expected_y := py_int (inject_Z (y other)) in
  let distance :=
    eucl_distance (inject_Z expected_x, inject_Z expected_y)
                  (inject_Z (x self), inject_Z (y self)) in
  let distances := distances ++ [distance] in
  let expected_x := py_int (mid_x other) in
  let expected_y := py_int (mid_y other) in
  let distance :=
    eucl_distance (inject_Z expected_x, inject_Z expected_y)
                  (mid_x self, mid_y self) in
  let distances := distances ++ [distance] in
  let distance :=
    eucl_distance (inject_Z (right other), inject_Z (bottom other))
                  (inject_Z (right self), inject_Z (bottom self)) in
  let distances := distances ++ [distance] in
  distances.

Definition on_height_edge (self crop_region : t) : bool :=
  if (top self =? top crop_region) || (bottom self =? bottom crop_region)
  then true else false.

Definition on_width_edge (self crop_region : t) : bool :=
  if (left self =? left crop_region) || (right self =? right crop_region)
  then true else false.

Definition subimage (self : t) (image : ndarray) : ndarray :=
  Rectangle.subimage (rect self) image.

(** [meta_dictionary] is written in the body of [Rectangle] and reads
    [pixel_variance]; it is embedded on regions.  [attr.asdict] lists the
    attributes the filter lets through, then the variance is rounded. *)
Definition meta_dictionary (self : t) : Result (gmap string PyVal) :=
  let region_info : gmap string PyVal :=
    <["x"%string := PyInt (x self)]> (<["y"%string := PyInt (y self)]>
    (<["width"%string := PyInt (width self)]>
    (<["height"%string := PyInt (height self)]>
    (<["mass"%string := mass self]>
    (<["frame_number"%string := frame_number self]>
    (<["pixel_variance"%string := pixel_variance self]>
    (<["blank"%string := blank self]> ∅))))))) in
  rounded ← py_round2 (pixel_variance self);
  mret (<["pixel_variance"%string := rounded]> region_info).

End Region.

(** ** Vocabulary of the properties *)

(** Python's [==] on two lists of numbers: same length, numerically equal
    items. *)
Definition list_num_eq (l1 l2 : list Q) : Prop := Forall2 Qeq l1 l2.

(** The values a 16-bit unsigned integer holds. *)
Definition in_uint16 (z : Z) : Prop := 0 <= z <= 65535.

(** The rule of the specification for the frame number of a JSON record, read
    literally: the keys are tried in order and the first one present in the
    mapping gives the value; [None] when none is present. *)
Fixpoint first_present (d : gmap string PyVal) (keys : list string) : PyVal :=
  match keys with
  | [] => PyNone
  | key :: keys =>
      match d !! key with
      | Some v => v
      | None => first_present d keys
      end
  end.

(** The same rule where a key mapped to [null] counts as missing: the first
    key, in order, that is present with a value other than [None]. *)
Fixpoint first_with_value (d : gmap string PyVal) (keys : list string) : PyVal :=
  match keys with
  | [] => PyNone
  | key :: keys =>
      match d !! key with
      | Some PyNone | None => first_with_value d keys
      | Some v => v
      end
  end.

(** The three names a JSON record may give the frame number, by priority. *)
Definition frame_number_keys : list string :=
  ["frame_number"; "frameNumber"; "order"]%string.

(** A JSON record with the four coordinates, a [frame_number] that is [null]
    and a [frameNumber] of 5:
    [{"x": 1, "y": 2, "width": 3, "height": 4, "frame_number": null,
      "frameNumber": 5}]. *)
Definition json_null_frame_number : gmap string PyVal :=
  <["x"%string := PyInt 1]> (<["y"%string := PyInt 2]>
  (<["width"%string := PyInt 3]> (<["height"%string := PyInt 4]>
  (<["frame_number"%string := PyNone]> (<["frameNumber"%string := PyInt 5]> ∅))))).


(** * Properties *)

(** ** Rectangle: the four edges under the setters and under [crop] *)

Section RectangleEdges.

Import Rectangle.

(** A rectangle is determined by its four edges. *)
Lemma edges_inj (A B : Rectangle.t) :
  left A = left B -> top A = top B ->
  right A = right B -> bottom A = bottom B -> A = B.
Proof.
  destruct A as [ax ay aw ah], B as [bx b_y bw bh].
  unfold left, top, right, bottom; simpl.
  intros -> -> Hr Hb. f_equal; lia.
Qed.

Lemma set_right_edges (R : Rectangle.t) (v : Z) :
  left (set_right R v) = left R /\ top (set_right R v) = top R /\
  right (set_right R v) = v /\ bottom (set_right R v) = bottom R.
Proof. unfold left, top, right, bottom, set_right; simpl. lia. Qed.

Lemma set_bottom_edges (R : Rectangle.t) (v : Z) :
  left (set_bottom R v) = left R /\ top (set_bottom R v) = top R /\
  right (set_bottom R v) = right R /\ bottom (set_bottom R v) = v.
Proof. unfold left, top, right, bottom, set_bottom; simpl. lia. Qed.

Lemma set_left_edges (R : Rectangle.t) (v : Z) :
  left (set_left R v) = v /\ top (set_left R v) = top R /\
  right (set_left R v) = right R /\ bottom (set_left R v) = bottom R.
Proof.
  unfold set_left.
  destruct (set_right_edges (set_x R v) (right R)) as (Hl & Ht & Hr & Hb).
  rewrite Hl, Ht, Hr, Hb. repeat split; reflexivity.
Qed.

Lemma set_top_edges (R : Rectangle.t) (v : Z) :
  left (set_top R v) = left R /\ top (set_top R v) = v /\
  right (set_top R v) = right R /\ bottom (set_top R v) = bottom R.
Proof.
  unfold set_top.
  destruct (set_bottom_edges (set_y R v) (bottom R)) as (Hl & Ht & Hr & Hb).
  rewrite Hl, Ht, Hr, Hb. repeat split; reflexivity.
Qed.

(** The edges [crop] leaves, each in terms of the edges before the call:
    the four assignments do not disturb one another. *)
Lemma crop_edges (R B : Rectangle.t) :
  left (crop R B) = Z.min (right B) (Z.max (left R) (left B)) /\
  top (crop R B) = Z.min (bottom B) (Z.max (top R) (top B)) /\
  right (crop R B) = Z.max (left B) (Z.min (right R) (right B)) /\
  bottom (crop R B) = Z.max (top B) (Z.min (bottom R) (bottom B)).
Proof.
  unfold crop.
  set (R1 := set_left R _).
  destruct (set_left_edges R (Z.min (right B) (Z.max (left R) (left B))))
    as (Hl1 & Ht1 & Hr1 & Hb1). fold R1 in Hl1, Ht1, Hr1, Hb1.
  set (R2 := set_top R1 _).
  destruct (set_top_edges R1 (Z.min (bottom B) (Z.max (top R1) (top B))))
    as (Hl2 & Ht2 & Hr2 & Hb2). fold R2 in Hl2, Ht2, Hr2, Hb2.
  set (R3 := set_right R2 _).
  destruct (set_right_edges R2 (Z.max (left B) (Z.min (right R2) (right B))))
    as (Hl3 & Ht3 & Hr3 & Hb3). fold R3 in Hl3, Ht3, Hr3, Hb3.
  destruct (set_bottom_edges R3 (Z.max (top B) (Z.min (bottom R3) (bottom B))))
    as (Hl4 & Ht4 & Hr4 & Hb4).
  rewrite Hl4, Ht4, Hr4, Hb4, Hl3, Ht3, Hr3, Hb3, Hl2, Ht2, Hr2, Hb2,
    Hl1, Ht1, Hr1, Hb1.
  repeat split; reflexivity.
Qed.

(** C7. Each edge setter moves its own edge to the value given and keeps the
    opposite edge where it was: setting [left] preserves [right], setting
    [right] preserves [left], setting [top] preserves [bottom] and setting
    [bottom] preserves [top] (so it is the width or height that changes). *)
Theorem edge_setters_hold_opposite_edge (R : Rectangle.t) (v : Z) :
  (left (set_left R v) = v /\ right (set_left R v) = right R) /\
  (right (set_right R v) = v /\ left (set_right R v) = left R) /\
  (top (set_top R v) = v /\ bottom (set_top R v) = bottom R) /\
  (bottom (set_bottom R v) = v /\ top (set_bottom R v) = top R).
Proof.
  pose proof (set_left_edges R v). pose proof (set_right_edges R v).
  pose proof (set_top_edges R v). pose proof (set_bottom_edges R v).
  intuition.
Qed.

(** C6. [crop] clamps each edge into the bounds: [left] becomes
    [min(bounds.right, max(left, bounds.left))], [top] the same with
    top and bottom, [right] becomes [max(bounds.left, min(right, bounds.right))]
    and [bottom] the same with top and bottom; and cropping a second time to
    the same bounds changes nothing. *)
Theorem crop_clamps_and_is_idempotent (R B : Rectangle.t) :
  left (crop R B) = Z.min (right B) (Z.max (left R) (left B)) /\
  top (crop R B) = Z.min (bottom B) (Z.max (top R) (top B)) /\
  right (crop R B) = Z.max (left B) (Z.min (right R) (right B)) /\
  bottom (crop R B) = Z.max (top B) (Z.min (bottom R) (bottom B)) /\
  crop (crop R B) B = crop R B.
Proof.
  destruct (crop_edges R B) as (Hl & Ht & Hr & Hb).
  destruct (crop_edges (crop R B) B) as (Hl' & Ht' & Hr' & Hb').
  repeat split; try assumption.
  apply edges_inj.
  - rewrite Hl', Hl. clear. lia.
  - rewrite Ht', Ht. clear. lia.
  - rewrite Hr', Hr. clear. lia.
  - rewrite Hb', Hb. clear. lia.
Qed.

(** C9. When the rectangle and the bounds both have [right >= left] and
    [bottom >= top], the cropped rectangle has its left and right edges in
    [[bounds.left, bounds.right]], its top and bottom edges in
    [[bounds.top, bounds.bottom]], and still has [right >= left] and
    [bottom >= top]. *)
Theorem crop_stays_within_bounds (R B : Rectangle.t) :
  left R <= right R -> top R <= bottom R ->
  left B <= right B -> top B <= bottom B ->
  (left B <= left (crop R B) <= right B /\
   left B <= right (crop R B) <= right B) /\
  (top B <= top (crop R B) <= bottom B /\
   top B <= bottom (crop R B) <= bottom B) /\
  left (crop R B) <= right (crop R B) /\
  top (crop R B) <= bottom (crop R B).
Proof.
  intros HR1 HR2 HB1 HB2.
  destruct (crop_edges R B) as (Hl & Ht & Hr & Hb).
  rewrite Hl, Ht, Hr, Hb.
  revert HR1 HR2 HB1 HB2.
  generalize (left R) (right R) (top R) (bottom R)
             (left B) (right B) (top B) (bottom B).
  clear. intros. lia.
Qed.

Lemma crop_stays_within_bounds_witness :
  let R := Rectangle.mk (-3) 4 20 3 in
  let B := Rectangle.mk 0 0 10 5 in
  crop R B = Rectangle.mk 0 4 10 1 /\
  (left B <= left (crop R B) <= right B /\
   left B <= right (crop R B) <= right B) /\
  (top B <= top (crop R B) <= bottom B /\
   top B <= bottom (crop R B) <= bottom B) /\
  left (crop R B) <= right (crop R B) /\
  top (crop R B) <= bottom (crop R B).
Proof.
  split; [reflexivity|].
  apply (crop_stays_within_bounds (Rectangle.mk (-3) 4 20 3) (Rectangle.mk 0 0 10 5));
    vm_compute; discriminate.
Defined.

End RectangleEdges.

(** ** Region: the border flag and the constructors' defaults *)

Section RegionFlags.

Import Region.

(** [set_is_along_border] assigns [is_along_border] and nothing else. *)
Lemma set_is_along_border_frame (r : Region.t) (B : Rectangle.t) (e : Z) :
  set_is_along_border r B e =
  set_flag_is_along_border r (is_along_border (set_is_along_border r B e)).
Proof. reflexivity. Qed.

(** C8. After [set_is_along_border(bounds, edge)] the flag is true exactly
    when the region was cropped, or [x <= bounds.x + edge], or
    [y <= bounds.y + edge], or [right >= bounds.width - edge], or
    [bottom >= bounds.height - edge].  The region at (5,5) of size 2x2 inside
    the bounds (0,0) 10x10 with edge 0 gets [False]; any region with
    [was_cropped=True] gets [True] whatever its position. *)
Theorem set_is_along_border_spec (r : Region.t) (B : Rectangle.t) (e : Z) :
  (is_along_border (set_is_along_border r B e) = true <->
     was_cropped r = true \/
     x r <= Rectangle.x B + e \/
     y r <= Rectangle.y B + e \/
     right r >= Rectangle.width B - e \/
     bottom r >= Rectangle.height B - e) /\
  is_along_border
    (set_is_along_border (new 5 5 2 2) (Rectangle.mk 0 0 10 10) default_edge) = false /\
  is_along_border (set_is_along_border (set_was_cropped r true) B e) = true.
Proof.
  split; [|split; reflexivity].
  unfold set_is_along_border; simpl.
  rewrite !orb_true_iff, !Z.leb_le, !Z.geb_le.
  intuition lia.
Qed.

(** C10. A region built directly from its four coordinates has
    [frame_number] 0, while [region_from_array] on a sequence of exactly four
    elements builds a region whose [frame_number] is [None]; the two defaults
    differ. *)
Theorem frame_number_defaults_differ (x0 y0 w h : Z) (d : dtype) (a b c e : Z) :
  frame_number (new x0 y0 w h) = PyInt 0 /\
  (exists r, region_from_array (mk_seq d [a; b; c; e]) = Ok r /\
             frame_number r = PyNone) /\
  PyInt 0 <> PyNone.
Proof.
  split; [reflexivity|]. split; [|discriminate].
  eexists. split; reflexivity.
Qed.

End RegionFlags.

(** ** Region: the array encoding *)

Section RegionArray.

Import Region.

Lemma wrap16_small (z : Z) : in_uint16 z -> wrap16 z = z.
Proof. unfold in_uint16, wrap16. intros H. apply Z.mod_small. lia. Qed.

(** The array of a region whose frame number and mass are ints. *)
Lemma to_array_ints (r : Region.t) (f m : Z) :
  frame_number r = PyInt f -> mass r = PyInt m ->
  to_array r =
  Ok [wrap16 (left r); wrap16 (top r); wrap16 (right r); wrap16 (bottom r);
      wrap16 f; wrap16 m; if truthy (blank r) then 1 else 0].
Proof.
  intros Hf Hm. unfold to_array. rewrite Hf, Hm.
  destruct (truthy (blank r)); reflexivity.
Qed.

(** A region without frame number has no array: [np.uint16] rejects [None]. *)
Lemma to_array_without_frame_number (r : Region.t) :
  frame_number r = PyNone -> to_array r = Raise TypeError.
Proof. intros Hf. unfold to_array. rewrite Hf. reflexivity. Qed.

(** Decoding the seven items of a [np.uint16] array. *)
Lemma region_from_array_seven (l t r b f m k : Z) :
  region_from_array (mk_seq uint16 [l; t; r; b; f; m; k]) =
  Ok (mk (Rectangle.mk l t (wrap16 (r - l)) (wrap16 (b - t)))
         (PyInt m) (PyInt (wrap16 f))
         default_pixel_variance default_id default_was_cropped
         (PyBool (k =? 1)) default_is_along_border).
Proof. reflexivity. Qed.

(** C4. For a region whose edges, frame number and mass all lie in
    [[0, 65535]], with [right >= left] and [bottom >= top] and a frame number
    present, decoding its array and encoding the result gives the same array
    again.  The region (0,0) 10x10 with frame number 3, mass 42 and
    [blank=False] encodes to [[0,0,10,10,3,42,0]], which decodes to width 10,
    height 10, mass 42, frame number 3 and [blank=False]. *)
Theorem array_round_trip :
  (forall (r : Region.t) (f m : Z),
     frame_number r = PyInt f -> mass r = PyInt m ->
     in_uint16 (left r) -> in_uint16 (top r) ->
     in_uint16 (right r) -> in_uint16 (bottom r) ->
     in_uint16 f -> in_uint16 m ->
     left r <= right r -> top r <= bottom r ->
     exists a r',
       to_array r = Ok a /\
       region_from_array (mk_seq uint16 a) = Ok r' /\
       to_array r' = Ok a) /\
  (let r := mk (Rectangle.mk 0 0 10 10) (PyInt 42) (PyInt 3)
               default_pixel_variance default_id default_was_cropped
               (PyBool false) default_is_along_border in
   to_array r = Ok [0; 0; 10; 10; 3; 42; 0] /\
   exists r',
     region_from_array (mk_seq uint16 [0; 0; 10; 10; 3; 42; 0]) = Ok r' /\
     width r' = 10 /\ height r' = 10 /\ mass r' = PyInt 42 /\
     frame_number r' = PyInt 3 /\ blank r' = PyBool false).
Proof.
  split.
  - intros r f m Hf Hm Hl Ht Hr Hb Hfr Hmr Hlr Htb.
    rewrite (to_array_ints r f m Hf Hm).
    rewrite !wrap16_small by assumption.
    do 2 eexists. split; [reflexivity|].
    rewrite region_from_array_seven. split; [reflexivity|].
    erewrite to_array_ints by reflexivity.
    unfold left, top, right, bottom, Rectangle.left, Rectangle.top,
      Rectangle.right, Rectangle.bottom in *; simpl.
    assert (Hw : in_uint16 (Rectangle.x (rect r) + Rectangle.width (rect r)
                            - Rectangle.x (rect r))) by (unfold in_uint16 in *; lia).
    assert (Hh : in_uint16 (Rectangle.y (rect r) + Rectangle.height (rect r)
                            - Rectangle.y (rect r))) by (unfold in_uint16 in *; lia).
    rewrite (wrap16_small _ Hw), (wrap16_small _ Hh).
    replace (Rectangle.x (rect r) + (Rectangle.x (rect r) + Rectangle.width (rect r)
                                     - Rectangle.x (rect r)))
      with (Rectangle.x (rect r) + Rectangle.width (rect r)) by lia.
    replace (Rectangle.y (rect r) + (Rectangle.y (rect r) + Rectangle.height (rect r)
                                     - Rectangle.y (rect r)))
      with (Rectangle.y (rect r) + Rectangle.height (rect r)) by lia.
    rewrite !(wrap16_small f), (wrap16_small m) by assumption.
    rewrite !wrap16_small by assumption.
    destruct (truthy (blank r)); reflexivity.
  - split; [reflexivity|].
    eexists. split; [reflexivity|]. repeat split.
Qed.

Lemma array_round_trip_witness :
  let r := mk (Rectangle.mk 7 2 5 9) (PyInt 300) (PyInt 65535)
              (PyFloat (1 # 2)) 4 true (PyBool true) false in
  to_array r = Ok [7; 2; 12; 11; 65535; 300; 1] /\
  exists a r',
    to_array r = Ok a /\
    region_from_array (mk_seq uint16 a) = Ok r' /\
    to_array r' = Ok a.
Proof.
  split; [reflexivity|].
  apply (proj1 array_round_trip
           (mk (Rectangle.mk 7 2 5 9) (PyInt 300) (PyInt 65535)
               (PyFloat (1 # 2)) 4 true (PyBool true) false) 65535 300);
    try reflexivity; vm_compute; intuition discriminate.
Defined.

End RegionArray.

(** ** Region: decoding a JSON record *)

Section RegionJson.

Import Region.

(** What [region_from_json] builds from a record that has the four
    coordinates: the three [get] calls chained by [if frame is None] give the
    first key with a value. *)
Lemma region_from_json_decodes (j : gmap string PyVal) (vx vy vw vh : Z) :
  j !! "x"%string = Some (PyInt vx) ->
  j !! "y"%string = Some (PyInt vy) ->
  j !! "width"%string = Some (PyInt vw) ->
  j !! "height"%string = Some (PyInt vh) ->
  region_from_json j =
  Ok (mk (Rectangle.mk vx vy vw vh)
         (dict_get j "mass" (PyInt 0))
         (first_with_value j frame_number_keys)
         (dict_get j "pixel_variance" (PyInt 0))
         default_id default_was_cropped
         (dict_get j "blank" (PyBool false))
         default_is_along_border).
Proof.
  intros Hx Hy Hw Hh.
  unfold region_from_json, getitem. rewrite Hx, Hy, Hw, Hh.
  unfold dict_get, frame_number_keys. simpl.
  destruct (j !! "frame_number"%string) as [[]|];
    destruct (j !! "frameNumber"%string) as [[]|];
    destruct (j !! "order"%string) as [[]|]; reflexivity.
Qed.

(** A record with the four coordinates decodes; a missing one raises. *)
Lemma region_from_json_needs_x (j : gmap string PyVal) :
  j !! "x"%string = None -> region_from_json j = Raise (KeyError "x").
Proof. intros H. unfold region_from_json, getitem. rewrite H. reflexivity. Qed.

(** C5, as amended. For a JSON record with the keys x, y, width and height,
    the decoded region takes its frame number from the first of the keys
    [frame_number], [frameNumber], [order], in that order, that is present
    with a value other than [null]; when none is, the frame number is [None].
    [mass], [blank] and [pixel_variance] are 0, [False] and 0 when their keys
    are missing, and the value given otherwise. *)
Theorem region_from_json_fields (j : gmap string PyVal) (vx vy vw vh : Z) :
  j !! "x"%string = Some (PyInt vx) ->
  j !! "y"%string = Some (PyInt vy) ->
  j !! "width"%string = Some (PyInt vw) ->
  j !! "height"%string = Some (PyInt vh) ->
  exists r,
    region_from_json j = Ok r /\
    rect r = Rectangle.mk vx vy vw vh /\
    frame_number r = first_with_value j frame_number_keys /\
    (j !! "frame_number"%string = None ->
     j !! "frameNumber"%string = None ->
     j !! "order"%string = None -> frame_number r = PyNone) /\
    mass r = default (PyInt 0) (j !! "mass"%string) /\
    blank r = default (PyBool false) (j !! "blank"%string) /\
    pixel_variance r = default (PyInt 0) (j !! "pixel_variance"%string).
Proof.
  intros Hx Hy Hw Hh.
  rewrite (region_from_json_decodes j vx vy vw vh Hx Hy Hw Hh).
  eexists. split; [reflexivity|].
  cbn [rect frame_number mass blank pixel_variance].
  split; [reflexivity|]. split; [reflexivity|]. split; [|repeat split].
  intros H1 H2 H3. unfold frame_number_keys; simpl. rewrite H1, H2, H3. reflexivity.
Qed.

Lemma region_from_json_fields_witness :
  exists r,
    region_from_json json_null_frame_number = Ok r /\
    rect r = Rectangle.mk 1 2 3 4 /\
    frame_number r = first_with_value json_null_frame_number frame_number_keys /\
    (json_null_frame_number !! "frame_number"%string = None ->
     json_null_frame_number !! "frameNumber"%string = None ->
     json_null_frame_number !! "order"%string = None -> frame_number r = PyNone) /\
    mass r = default (PyInt 0) (json_null_frame_number !! "mass"%string) /\
    blank r = default (PyBool false) (json_null_frame_number !! "blank"%string) /\
    pixel_variance r =
      default (PyInt 0) (json_null_frame_number !! "pixel_variance"%string).
Proof.
  apply (region_from_json_fields json_null_frame_number 1 2 3 4);
    vm_compute; reflexivity.
Defined.

(** C5 as stated fails: with [frame_number] present but [null] and
    [frameNumber] 5, the first key present is [frame_number], whose value is
    [None], yet the decoded region has frame number 5. *)
Lemma region_from_json_skips_null :
  json_null_frame_number !! "frame_number"%string = Some PyNone /\
  first_present json_null_frame_number frame_number_keys = PyNone /\
  exists r,
    region_from_json json_null_frame_number = Ok r /\
    frame_number r = PyInt 5 /\
    frame_number r <> first_present json_null_frame_number frame_number_keys.
Proof.
  split; [vm_compute; reflexivity|]. split; [vm_compute; reflexivity|].
  eexists. split; [vm_compute; reflexivity|]. split; [reflexivity|].
  vm_compute. discriminate.
Qed.

End RegionJson.

(** ** Region: mass and variance of a buffer *)

Section RegionBuffers.

Import Region.

(** A buffer of another shape than the region is refused by the assertion,
    for [calculate_mass] and [calculate_variance] alike. *)
Lemma calculate_mass_shape_mismatch (r : Region.t) (filtered : ndarray) (threshold : Q) :
  shape filtered <> (height r, width r) ->
  calculate_mass r filtered threshold =
  Raise (AssertionError "calculating variance on incorrectly sized filtered").
Proof.
  intros Hs. unfold calculate_mass.
  destruct (shape filtered) as [h w].
  destruct (Z.eqb_spec w (width r)) as [->|Hw];
    destruct (Z.eqb_spec h (height r)) as [->|Hh]; try reflexivity.
  contradiction.
Qed.

Lemma calculate_variance_shape_mismatch (r : Region.t) (filtered : ndarray)
    (prev_filtered : option ndarray) :
  shape filtered <> (height r, width r) ->
  calculate_variance r filtered prev_filtered =
  Raise (AssertionError "calculating variance on incorrectly sized filtered").
Proof.
  intros Hs. unfold calculate_variance.
  destruct (shape filtered) as [h w].
  destruct (Z.eqb_spec w (width r)) as [->|Hw];
    destruct (Z.eqb_spec h (height r)) as [->|Hh]; try reflexivity.
  contradiction.
Qed.

(** Past the assertion, [calculate_mass] stops at the name [tools], which
    region.py never binds: nothing is stored. *)
Lemma calculate_mass_shape_match (r : Region.t) (filtered : ndarray) (threshold : Q) :
  shape filtered = (height r, width r) ->
  calculate_mass r filtered threshold = Raise (NameError "tools").
Proof.
  intros Hs. unfold calculate_mass. rewrite Hs, !Z.eqb_refl. reflexivity.
Qed.

(** C1, at the failing input. The region (0,0) of width 2 and height 1 is
    given the 1x2 buffer [[5, 1]] and the threshold 3. The shape matches and
    one pixel exceeds the threshold, so the mass should become 1; the call
    raises [NameError] instead. (The region of width 10 and height 5 given a
    5x11 buffer does fail on the shape, as C1 says.) *)
Theorem calculate_mass_raises_NameError :
  let r := new 0 0 2 1 in
  let filtered := mk_ndarray (1, 2) [5 # 1; 1 # 1]%Q in
  let threshold := (3 # 1)%Q in
  shape filtered = (height r, width r) /\
  tools_calculate_mass filtered threshold = 1 /\
  calculate_mass r filtered threshold = Raise (NameError "tools") /\
  calculate_mass (new 0 0 10 5) (mk_ndarray (5, 11) (repeat 0%Q 55)) threshold =
  Raise (AssertionError "calculating variance on incorrectly sized filtered").
Proof. repeat split. Qed.

(** C2, as amended. With a buffer of the region's shape and no previous
    buffer, [calculate_variance] does not fail and assigns [None] to
    [pixel_variance], whatever it held; every other attribute is kept. *)
Theorem calculate_variance_without_previous (r : Region.t) (filtered : ndarray) :
  shape filtered = (height r, width r) ->
  calculate_variance r filtered None = Ok (set_pixel_variance r PyNone) /\
  pixel_variance (set_pixel_variance r PyNone) = PyNone.
Proof.
  intros Hs. unfold calculate_variance. rewrite Hs, !Z.eqb_refl.
  split; reflexivity.
Qed.

Lemma calculate_variance_without_previous_witness :
  let r := set_pixel_variance (new 3 4 2 1) (PyFloat (5 # 2)) in
  let filtered := mk_ndarray (1, 2) [5 # 1; 1 # 1]%Q in
  shape filtered = (height r, width r) /\
  calculate_variance r filtered None = Ok (set_pixel_variance r PyNone) /\
  pixel_variance (set_pixel_variance r PyNone) = PyNone.
Proof.
  split; [reflexivity|].
  apply (calculate_variance_without_previous
           (set_pixel_variance (new 3 4 2 1) (PyFloat (5 # 2)))
           (mk_ndarray (1, 2) [5 # 1; 1 # 1]%Q)).
  reflexivity.
Defined.

(** C2 as stated fails: a region whose [pixel_variance] is 2.5 has
    [pixel_variance] [None] after the call without previous buffer. *)
Lemma calculate_variance_overwrites_pixel_variance :
  let r := set_pixel_variance (new 3 4 2 1) (PyFloat (5 # 2)) in
  let filtered := mk_ndarray (1, 2) [5 # 1; 1 # 1]%Q in
  shape filtered = (height r, width r) /\
  exists r',
    calculate_variance r filtered None = Ok r' /\
    pixel_variance r = PyFloat (5 # 2) /\
    pixel_variance r' = PyNone /\
    pixel_variance r' <> pixel_variance r.
Proof.
  split; [reflexivity|]. eexists. split; [reflexivity|].
  split; [reflexivity|]. split; [reflexivity|]. discriminate.
Qed.

End RegionBuffers.

(** ** Region: the distance between two regions *)

Section RegionDistance.

Import Region.

Lemma py_int_inject_Z (z : Z) : py_int (inject_Z z) = z.
Proof. unfold py_int; simpl. apply Z.quot_1_r. Qed.

(** The remainder of a truncating division by 2 is -1, 0 or 1; its square
    is the parity. *)
Lemma rem2_square (n : Z) : Z.rem n 2 * Z.rem n 2 = n mod 2.
Proof.
  pose proof (Z.quot_rem' n 2) as Hq.
  pose proof (Z.rem_bound_abs n 2 ltac:(lia)) as Hb.
  pose proof (Z.mod_pos_bound n 2 ltac:(lia)) as Hm.
  pose proof (Z.div_mod n 2 ltac:(lia)) as Hd.
  assert (Hr : Z.rem n 2 = -1 \/ Z.rem n 2 = 0 \/ Z.rem n 2 = 1) by lia.
  destruct Hr as [Hr|[Hr|Hr]]; rewrite Hr in *; lia.
Qed.

(** What [int(...)] cuts off a midpoint [x + w / 2]: nothing when [w] is
    even, a half when it is odd; squared, a quarter of the parity. *)
Lemma truncation_gap (x0 w : Z) :
  let m := (inject_Z x0 + inject_Z w / 2)%Q in
  ((inject_Z (py_int m) - m) * (inject_Z (py_int m) - m)
   == inject_Z (w mod 2) / 4)%Q.
Proof.
  intros m. unfold m, py_int. simpl Qnum. simpl Qden.
  change (Z.pos (1 * 2)) with 2. change (Z.pos (1 * (1 * 2))) with 2.
  set (n := x0 * 2 + w * 1 * 1).
  pose proof (Z.quot_rem' n 2) as Hn.
  pose proof (rem2_square n) as Hr.
  assert (Hmod : n mod 2 = w mod 2).
  { unfold n. rewrite Z.add_comm, !Z.mul_1_r. apply Z_mod_plus_full. }
  rewrite Hmod in Hr. clear Hmod.
  assert (Hw : w = 2 * (n ÷ 2) + Z.rem n 2 + - (2 * x0)) by (unfold n in *; lia).
  rewrite <- Hr. clear Hr Hn.
  revert Hw. generalize (n ÷ 2) (Z.rem n 2). clearbody n. intros q r Hw.
  rewrite Hw.
  rewrite !inject_Z_plus, inject_Z_opp, !inject_Z_mult.
  change (inject_Z 2) with 2%Q. field.
Qed.

Lemma list_num_eq_three (a b c a' b' c' : Q) :
  list_num_eq [a; b; c] [a'; b'; c'] <-> (a == a' /\ b == b' /\ c == c')%Q.
Proof.
  unfold list_num_eq. split.
  - intros H. inversion H as [|? ? ? ? Ha H1]; subst.
    inversion H1 as [|? ? ? ? Hb H2]; subst.
    inversion H2 as [|? ? ? ? Hc H3]; subst. auto.
  - intros (Ha & Hb & Hc). repeat constructor; assumption.
Qed.

(** The three terms, in the order they are appended. *)
Lemma average_distance_terms (A B : Region.t) :
  average_distance A B =
  [eucl_distance (inject_Z (py_int (inject_Z (x B))), inject_Z (py_int (inject_Z (y B))))
                 (inject_Z (x A), inject_Z (y A));
   eucl_distance (inject_Z (py_int (mid_x B)), inject_Z (py_int (mid_y B)))
                 (mid_x A, mid_y A);
   eucl_distance (inject_Z (right B), inject_Z (bottom B))
                 (inject_Z (right A), inject_Z (bottom A))].
Proof. reflexivity. Qed.

(** Two regions of equal coordinates: the corner terms vanish and the
    middle term is a quarter for each odd dimension. *)
Lemma average_distance_same_rect (A B : Region.t) :
  rect A = rect B ->
  list_num_eq (average_distance A B)
    [0; inject_Z (width A mod 2 + height A mod 2) / 4; 0]%Q.
Proof.
  intros HAB. rewrite average_distance_terms.
  unfold x, y, right, bottom, mid_x, mid_y, width, height.
  rewrite <- HAB. clear HAB B.
  apply list_num_eq_three. rewrite !py_int_inject_Z.
  unfold eucl_distance; cbn [fst snd]. repeat split.
  - ring.
  - unfold Rectangle.mid_x, Rectangle.mid_y.
    rewrite (truncation_gap (Rectangle.x (rect A)) (Rectangle.width (rect A))).
    rewrite (truncation_gap (Rectangle.y (rect A)) (Rectangle.height (rect A))).
    rewrite inject_Z_plus. field.
  - ring.
Qed.

Lemma parity_sum_zero (w h : Z) :
  (inject_Z (w mod 2 + h mod 2) / 4 == 0)%Q <->
  Z.even w = true /\ Z.even h = true.
Proof.
  rewrite !Zmod_even.
  destruct (Z.even w), (Z.even h); simpl; unfold Qeq; simpl;
    intuition discriminate.
Qed.

(** C3, as amended. For two regions of equal x, y, width and height,
    [average_distance] returns [[0, d, 0]] where [d] is a quarter for each
    odd one of width and height; so the result is [[0, 0, 0]] exactly when
    width and height are both even.  The result is a function of the two
    rectangles alone: asking again gives the same list. *)
Theorem average_distance_equal_regions :
  (forall A B : Region.t,
     x A = x B -> y A = y B -> width A = width B -> height A = height B ->
     list_num_eq (average_distance A B)
       [0; inject_Z (width A mod 2 + height A mod 2) / 4; 0]%Q /\
     (list_num_eq (average_distance A B) [0; 0; 0]%Q <->
      Z.even (width A) = true /\ Z.even (height A) = true)) /\
  (forall A A' B B' : Region.t,
     rect A = rect A' -> rect B = rect B' ->
     average_distance A B = average_distance A' B').
Proof.
  split.
  - intros A B Hx Hy Hw Hh.
    assert (HAB : rect A = rect B).
    { unfold x, y, width, height in *.
      destruct (rect A), (rect B); simpl in *; congruence. }
    pose proof (average_distance_same_rect A B HAB) as Hd.
    split; [exact Hd|].
    rewrite <- parity_sum_zero.
    rewrite average_distance_terms in *.
    apply list_num_eq_three in Hd. destruct Hd as (H0 & H1 & H2).
    rewrite list_num_eq_three, H0, H1, H2.
    intuition reflexivity.
  - intros A A' B B' HA HB. rewrite !average_distance_terms.
    unfold x, y, right, bottom, mid_x, mid_y. rewrite HA, HB. reflexivity.
Qed.

Lemma average_distance_equal_regions_witness :
  let A := new 4 6 10 8 in
  let B := set_mass (new 4 6 10 8) (PyInt 17) in
  (x A = x B /\ y A = y B /\ width A = width B /\ height A = height B) /\
  list_num_eq (average_distance A B)
    [0; inject_Z (width A mod 2 + height A mod 2) / 4; 0]%Q /\
  (list_num_eq (average_distance A B) [0; 0; 0]%Q <->
   Z.even (width A) = true /\ Z.even (height A) = true).
Proof.
  split; [repeat split|].
  apply (proj1 average_distance_equal_regions
           (new 4 6 10 8) (set_mass (new 4 6 10 8) (PyInt 17)));
    reflexivity.
Defined.

(** C3 as stated fails: the region (0,0) of width 1 and height 1 is at
    distance [[0, 0.5, 0]] from itself. *)
Lemma average_distance_odd_size :
  let A := new 0 0 1 1 in
  list_num_eq (average_distance A A) [0; 1 # 2; 0]%Q /\
  ~ list_num_eq (average_distance A A) [0; 0; 0]%Q.
Proof.
  split.
  - apply list_num_eq_three. repeat split.
  - intros H. apply list_num_eq_three in H. destruct H as (_ & H & _).
    vm_compute in H. discriminate.
Qed.

End RegionDistance.

(** ** Rectangle: conversions, overlap, cropping and enlarging *)

Section RectangleGeometry.

Import Rectangle.

(** X1. A rectangle built from its left, top, right and bottom edges gives
    these four edges back, and building from the edges of a rectangle gives
    the rectangle back. *)
Theorem ltrb_round_trip (l t r b : Z) (R : Rectangle.t) :
  to_ltrb (from_ltrb l t r b) = [l; t; r; b] /\
  from_ltrb (left R) (top R) (right R) (bottom R) = R.
Proof.
  split.
  - unfold to_ltrb, from_ltrb, left, top, right, bottom; simpl.
    repeat f_equal; lia.
  - apply edges_inj; unfold from_ltrb, left, top, right, bottom; simpl; lia.
Qed.

(** The overlap along one axis: symmetric, never negative, and positive
    exactly when the two intervals share more than a point. *)
Lemma axis_overlap (a1 a2 b1 b2 : Z) :
  let o := Z.max 0 (Z.min a2 b2 - Z.max a1 b1) in
  o = Z.max 0 (Z.min b2 a2 - Z.max b1 a1) /\ 0 <= o /\
  (0 < o <-> (a1 < b2 /\ b1 < a2 /\ a1 < a2 /\ b1 < b2)).
Proof. cbv zeta. lia. Qed.

(** X2. The overlap area does not depend on which rectangle is asked, and it
    is never negative, also for rectangles of negative width or height. *)
Theorem overlap_area_symmetric_nonneg (A B : Rectangle.t) :
  overlap_area A B = overlap_area B A /\ 0 <= overlap_area A B.
Proof.
  unfold overlap_area; cbv zeta.
  destruct (axis_overlap (left A) (right A) (left B) (right B)) as (Hx & Hx0 & _).
  destruct (axis_overlap (top A) (bottom A) (top B) (bottom B)) as (Hy & Hy0 & _).
  cbv zeta in *. rewrite <- Hx, <- Hy. split; [reflexivity|].
  apply Z.mul_nonneg_nonneg; assumption.
Qed.

(** X3. The overlap area is positive exactly when both rectangles have
    positive width and height and each starts strictly before the other
    ends, on both axes; rectangles that only touch, or that are apart,
    overlap by 0. *)
Theorem overlap_area_positive_iff (A B : Rectangle.t) :
  0 < overlap_area A B <->
  (left A < right B /\ left B < right A /\ left A < right A /\ left B < right B) /\
  (top A < bottom B /\ top B < bottom A /\ top A < bottom A /\ top B < bottom B).
Proof.
  unfold overlap_area; cbv zeta.
  destruct (axis_overlap (left A) (right A) (left B) (right B)) as (_ & Hx0 & Hx).
  destruct (axis_overlap (top A) (bottom A) (top B) (bottom B)) as (_ & Hy0 & Hy).
  cbv zeta in *. rewrite <- Hx, <- Hy.
  set (ox := Z.max 0 _) in *. set (oy := Z.max 0 _) in *.
  clearbody ox oy. clear Hx Hy. nia.
Qed.

(** The width and height left by [crop], for a rectangle and bounds that
    both have [right >= left] and [bottom >= top]. *)
Lemma crop_size (R B : Rectangle.t) :
  left R <= right R -> top R <= bottom R ->
  left B <= right B -> top B <= bottom B ->
  width (crop R B) = Z.max 0 (Z.min (right R) (right B) - Z.max (left R) (left B)) /\
  height (crop R B) = Z.max 0 (Z.min (bottom R) (bottom B) - Z.max (top R) (top B)).
Proof.
  intros HR1 HR2 HB1 HB2.
  destruct (crop_edges R B) as (Hl & Ht & Hr & Hb).
  unfold left, top, right, bottom in *. split; lia.
Qed.

(** X4. For a rectangle and bounds that both have [right >= left] and
    [bottom >= top], the area of the cropped rectangle is the overlap area
    of the rectangle and the bounds. *)
Theorem area_of_crop_is_overlap_area (R B : Rectangle.t) :
  left R <= right R -> top R <= bottom R ->
  left B <= right B -> top B <= bottom B ->
  area (crop R B) = overlap_area R B.
Proof.
  intros HR1 HR2 HB1 HB2.
  destruct (crop_size R B HR1 HR2 HB1 HB2) as (Hw & Hh).
  unfold area, overlap_area. rewrite Hw, Hh. reflexivity.
Qed.

Lemma area_of_crop_is_overlap_area_witness :
  let R := Rectangle.mk (-3) 4 20 3 in
  let B := Rectangle.mk 0 0 10 5 in
  area (crop R B) = 10 /\ area (crop R B) = overlap_area R B.
Proof.
  split; [reflexivity|].
  apply (area_of_crop_is_overlap_area (Rectangle.mk (-3) 4 20 3) (Rectangle.mk 0 0 10 5));
    vm_compute; discriminate.
Defined.

(** A rectangle whose edges lie within the bounds is not changed by [crop]. *)
Lemma crop_inside (R B : Rectangle.t) :
  left B <= left R <= right B -> left B <= right R <= right B ->
  top B <= top R <= bottom B -> top B <= bottom R <= bottom B ->
  crop R B = R.
Proof.
  intros H1 H2 H3 H4.
  destruct (crop_edges R B) as (Hl & Ht & Hr & Hb).
  apply edges_inj; lia.
Qed.

(** X5. For bounds with [right >= left] and [bottom >= top], [crop] leaves
    a rectangle as it is exactly when its four edges already lie within the
    bounds. *)
Theorem crop_is_identity_iff_inside (R B : Rectangle.t) :
  left B <= right B -> top B <= bottom B ->
  (crop R B = R <->
   (left B <= left R <= right B /\ left B <= right R <= right B) /\
   (top B <= top R <= bottom B /\ top B <= bottom R <= bottom B)).
Proof.
  intros HB1 HB2.
  destruct (crop_edges R B) as (Hl & Ht & Hr & Hb).
  split.
  - intros Heq. rewrite Heq in Hl, Ht, Hr, Hb. lia.
  - intros Hin. apply crop_inside; lia.
Qed.

Lemma crop_is_identity_iff_inside_witness :
  let R := Rectangle.mk 2 1 5 3 in
  let B := Rectangle.mk 0 0 10 5 in
  crop R B = R /\
  (crop (Rectangle.mk 8 1 5 3) B = Rectangle.mk 8 1 5 3 <->
   (left B <= 8 <= right B /\ left B <= 13 <= right B) /\
   (top B <= 1 <= bottom B /\ top B <= 4 <= bottom B)).
Proof.
  split; [reflexivity|].
  apply (crop_is_identity_iff_inside (Rectangle.mk 8 1 5 3) (Rectangle.mk 0 0 10 5));
    vm_compute; discriminate.
Defined.

(** X6. A rectangle with [right >= left] that lies entirely to the left of
    the bounds, or entirely to their right, is cropped to width 0 on the
    edge of the bounds nearest to it; [crop] does not fail. *)
Theorem crop_outside_collapses (R B : Rectangle.t) :
  left R <= right R -> left B <= right B ->
  (right R <= left B ->
   left (crop R B) = left B /\ right (crop R B) = left B /\ width (crop R B) = 0) /\
  (right B <= left R ->
   left (crop R B) = right B /\ right (crop R B) = right B /\ width (crop R B) = 0).
Proof.
  intros HR HB.
  destruct (crop_edges R B) as (Hl & _ & Hr & _).
  unfold left, right in *. split; intros Hout; lia.
Qed.

Lemma crop_outside_collapses_witness :
  let R := Rectangle.mk (-8) 1 5 3 in
  let B := Rectangle.mk 0 0 10 5 in
  crop R B = Rectangle.mk 0 1 0 3 /\
  (right R <= left B ->
   left (crop R B) = left B /\ right (crop R B) = left B /\ width (crop R B) = 0).
Proof.
  split; [reflexivity|].
  apply (crop_outside_collapses (Rectangle.mk (-8) 1 5 3) (Rectangle.mk 0 0 10 5));
    vm_compute; discriminate.
Defined.

(** The edges after [enlarge] without bounds. *)
Lemma enlarge_edges (R : Rectangle.t) (k : Z) :
  left (enlarge R k None) = left R - k /\ top (enlarge R k None) = top R - k /\
  right (enlarge R k None) = right R + k /\ bottom (enlarge R k None) = bottom R + k.
Proof.
  unfold enlarge.
  set (R1 := set_left R _).
  destruct (set_left_edges R (left R - k)) as (Hl1 & Ht1 & Hr1 & Hb1).
  fold R1 in Hl1, Ht1, Hr1, Hb1.
  set (R2 := set_right R1 _).
  destruct (set_right_edges R1 (right R1 + k)) as (Hl2 & Ht2 & Hr2 & Hb2).
  fold R2 in Hl2, Ht2, Hr2, Hb2.
  set (R3 := set_top R2 _).
  destruct (set_top_edges R2 (top R2 - k)) as (Hl3 & Ht3 & Hr3 & Hb3).
  fold R3 in Hl3, Ht3, Hr3, Hb3.
  destruct (set_bottom_edges R3 (bottom R3 + k)) as (Hl4 & Ht4 & Hr4 & Hb4).
  rewrite Hl4, Ht4, Hr4, Hb4, Hl3, Ht3, Hr3, Hb3, Hl2, Ht2, Hr2, Hb2,
    Hl1, Ht1, Hr1, Hb1.
  repeat split; reflexivity.
Qed.

(** X7. [enlarge] without bounds moves every edge outwards by the border,
    so width and height grow by twice the border; enlarging by the opposite
    border afterwards restores the rectangle. *)
Theorem enlarge_grows_every_side (R : Rectangle.t) (k : Z) :
  enlarge R k None = Rectangle.mk (x R - k) (y R - k) (width R + 2 * k) (height R + 2 * k) /\
  enlarge (enlarge R k None) (- k) None = R.
Proof.
  destruct (enlarge_edges R k) as (Hl & Ht & Hr & Hb).
  destruct (enlarge_edges (enlarge R k None) (- k)) as (Hl' & Ht' & Hr' & Hb').
  split; apply edges_inj;
    rewrite ?Hl', ?Ht', ?Hr', ?Hb', ?Hl, ?Ht, ?Hr, ?Hb;
    unfold left, top, right, bottom; simpl; lia.
Qed.

(** X8. When the rectangle, with [right >= left] and [bottom >= top], stays
    at least a non-negative border away from every side of the bounds,
    [enlarge] with these bounds clips nothing: the result is the rectangle
    enlarged without bounds. *)
Theorem enlarge_inside_bounds_clips_nothing (R B : Rectangle.t) (k : Z) :
  0 <= k -> left R <= right R -> top R <= bottom R ->
  left B + k <= left R -> right R + k <= right B ->
  top B + k <= top R -> bottom R + k <= bottom B ->
  enlarge R k (Some B) = enlarge R k None.
Proof.
  intros Hk HR1 HR2 H1 H2 H3 H4.
  change (enlarge R k (Some B)) with (crop (enlarge R k None) B).
  destruct (enlarge_edges R k) as (Hl & Ht & Hr & Hb).
  apply crop_inside; lia.
Qed.

Lemma enlarge_inside_bounds_clips_nothing_witness :
  let R := Rectangle.mk 3 2 4 1 in
  let B := Rectangle.mk 0 0 10 5 in
  enlarge R 2 (Some B) = Rectangle.mk 1 0 8 5 /\
  enlarge R 2 (Some B) = enlarge R 2 None.
Proof.
  split; [reflexivity|].
  apply (enlarge_inside_bounds_clips_nothing
           (Rectangle.mk 3 2 4 1) (Rectangle.mk 0 0 10 5) 2);
    vm_compute; discriminate.
Defined.

End RectangleGeometry.

(** ** Rectangle: area *)

Section RectangleMeasures.

Import Rectangle.


(** X9. A rectangle of non-negative width and height overlaps itself by its
    whole area, and no rectangle overlaps it by more than its area. *)
Theorem overlap_area_at_most_area (A B : Rectangle.t) :
  0 <= width A -> 0 <= height A ->
  overlap_area A A = area A /\ overlap_area A B <= area A.
Proof.
  intros Hw Hh. unfold overlap_area, area, left, top, right, bottom; cbv zeta.
  split.
  - f_equal; lia.
  - apply Z.mul_le_mono_nonneg; lia.
Qed.

Lemma overlap_area_at_most_area_witness :
  let A := Rectangle.mk 2 1 5 3 in
  let B := Rectangle.mk 4 0 10 2 in
  overlap_area A B = 3 /\ area A = 15 /\
  overlap_area A A = area A /\ overlap_area A B <= area A.
Proof.
  split; [reflexivity|]. split; [reflexivity|].
  apply (overlap_area_at_most_area (Rectangle.mk 2 1 5 3) (Rectangle.mk 4 0 10 2));
    vm_compute; discriminate.
Defined.

End RectangleMeasures.

(** ** Region: movement, scaling and edges *)

Section RegionMotion.

Import Region.

(** X10. [has_moved] does not depend on which of the two regions is asked;
    a region has not moved from itself, nor from a region sharing its
    top-left corner or its bottom-right corner (it only grew or shrank); and
    a region shifted by (dx, dy) without resizing has moved exactly when the
    shift is not (0, 0). *)
Theorem has_moved_facts (a b : Region.t) (dx dy : Z) :
  has_moved a b = has_moved b a /\
  has_moved a a = false /\
  (x a = x b -> y a = y b -> has_moved a b = false) /\
  (right a = right b -> bottom a = bottom b -> has_moved a b = false) /\
  (has_moved a (set_rect a (Rectangle.mk (x a + dx) (y a + dy) (width a) (height a)))
   = true <-> dx <> 0 \/ dy <> 0).
Proof.
  unfold has_moved, x, y, right, bottom, width, height,
    Rectangle.right, Rectangle.bottom; simpl.
  repeat split.
  - rewrite (Z.eqb_sym (Rectangle.x (rect a))),
      (Z.eqb_sym (Rectangle.y (rect a))),
      (Z.eqb_sym (Rectangle.x (rect a) + _)),
      (Z.eqb_sym (Rectangle.y (rect a) + _)). reflexivity.
  - rewrite !Z.eqb_refl. reflexivity.
  - intros -> ->. rewrite !Z.eqb_refl. reflexivity.
  - intros -> ->. rewrite !Z.eqb_refl, !andb_false_r. reflexivity.
  - rewrite orb_true_iff, !andb_true_iff, !negb_true_iff, !Z.eqb_neq. lia.
  - rewrite orb_true_iff, !andb_true_iff, !negb_true_iff, !Z.eqb_neq. lia.
Qed.

Lemma has_moved_facts_witness :
  let a := new 2 3 4 5 in
  let b := new 2 3 9 1 in
  has_moved a b = false /\
  (has_moved a (set_rect a (Rectangle.mk (x a + 0) (y a + 6) (width a) (height a)))
   = true <-> 0 <> 0 \/ 6 <> 0).
Proof.
  split.
  - apply (proj1 (proj2 (proj2 (has_moved_facts (new 2 3 4 5) (new 2 3 9 1) 0 6))));
      reflexivity.
  - apply (proj2 (proj2 (proj2 (proj2 (has_moved_facts (new 2 3 4 5) (new 2 3 9 1) 0 6))))).
Defined.



(** X12. For bounds with [right >= left], a region that reached to or past
    the left or right side of the bounds lies on a width edge of the bounds
    once cropped to them; the same holds for top, bottom and
    [on_height_edge]. *)
Theorem cropped_region_is_on_edge (r c : Region.t) :
  Rectangle.left (rect c) <= Rectangle.right (rect c) ->
  Rectangle.top (rect c) <= Rectangle.bottom (rect c) ->
  (left r <= left c \/ right c <= right r ->
   on_width_edge (crop r (rect c)) c = true) /\
  (top r <= top c \/ bottom c <= bottom r ->
   on_height_edge (crop r (rect c)) c = true).
Proof.
  intros Hc1 Hc2.
  destruct (crop_edges (rect r) (rect c)) as (Hl & Ht & Hr & Hb).
  unfold on_width_edge, on_height_edge, left, right, top, bottom, crop.
  cbn [rect set_rect].
  split; intros Hout.
  - destruct (Z.eqb_spec (Rectangle.left (Rectangle.crop (rect r) (rect c)))
                         (Rectangle.left (rect c))) as [|Hne1];
      destruct (Z.eqb_spec (Rectangle.right (Rectangle.crop (rect r) (rect c)))
                           (Rectangle.right (rect c))) as [|Hne2];
      try reflexivity.
    exfalso. clear Ht Hb. lia.
  - destruct (Z.eqb_spec (Rectangle.top (Rectangle.crop (rect r) (rect c)))
                         (Rectangle.top (rect c))) as [|Hne1];
      destruct (Z.eqb_spec (Rectangle.bottom (Rectangle.crop (rect r) (rect c)))
                           (Rectangle.bottom (rect c))) as [|Hne2];
      try reflexivity.
    exfalso. clear Hl Hr. lia.
Qed.

Lemma cropped_region_is_on_edge_witness :
  let r := new (-3) 1 6 2 in
  let c := new 0 0 10 5 in
  on_width_edge (crop r (rect c)) c = true /\
  on_height_edge (crop r (rect c)) c = false /\
  (left r <= left c \/ right c <= right r ->
   on_width_edge (crop r (rect c)) c = true).
Proof.
  split; [reflexivity|]. split; [reflexivity|].
  apply (cropped_region_is_on_edge (new (-3) 1 6 2) (new 0 0 10 5));
    vm_compute; discriminate.
Defined.


(** X13. For bounds with non-negative x, y, width and height and a
    non-negative edge, a region that reached to or past any side of the
    bounds is flagged along the border once cropped to them, although [crop]
    leaves [was_cropped] as it was. *)
Theorem cropped_region_is_along_border (r : Region.t) (B : Rectangle.t) (e : Z) :
  0 <= Rectangle.x B -> 0 <= Rectangle.y B ->
  0 <= Rectangle.width B -> 0 <= Rectangle.height B -> 0 <= e ->
  left r <= Rectangle.left B \/ top r <= Rectangle.top B \/
  Rectangle.right B <= right r \/ Rectangle.bottom B <= bottom r ->
  was_cropped (crop r B) = was_cropped r /\
  is_along_border (set_is_along_border (crop r B) B e) = true.
Proof.
  intros Hx Hy Hw Hh He Hout. split; [reflexivity|].
  destruct (crop_edges (rect r) B) as (Hl & Ht & Hr & Hb).
  unfold set_is_along_border, crop, x, y, right, bottom, left, top in *; simpl.
  rewrite !orb_true_iff, !Z.leb_le, !Z.geb_le.
  unfold Rectangle.left, Rectangle.top, Rectangle.right, Rectangle.bottom in *.
  lia.
Qed.

Lemma cropped_region_is_along_border_witness :
  let r := new 7 3 6 2 in
  let B := Rectangle.mk 0 0 10 10 in
  was_cropped (crop r B) = false /\
  is_along_border (set_is_along_border (crop r B) B 0) = true.
Proof.
  apply (cropped_region_is_along_border (new 7 3 6 2) (Rectangle.mk 0 0 10 10) 0);
    vm_compute; try discriminate.
  right. right. left. discriminate.
Defined.

End RegionMotion.

(** ** Region: encoding to and decoding from arrays *)

Section RegionArrayCodec.

Import Region.





(** X15. [region_from_array] raises [IndexError] on a sequence of fewer than
    four elements. *)
Theorem region_from_array_too_short (s : IntSeq) :
  (length (elems s) < 4)%nat -> region_from_array s = Raise IndexError.
Proof.
  destruct s as [d l]. simpl.
  destruct l as [|a [|b [|c [|e l]]]]; simpl; intros H; try reflexivity.
  lia.
Qed.

Lemma region_from_array_too_short_witness :
  region_from_array (mk_seq py_ints [1; 2; 3]) = Raise IndexError.
Proof.
  apply (region_from_array_too_short (mk_seq py_ints [1; 2; 3])).
  simpl. lia.
Defined.



(** X17. Decoding a [np.uint16] array of seven items whose last item is 0 or
    1 and encoding the region again gives the array back, also when the
    third item is below the first (the width then wraps around, and so does
    the right edge on the way back). *)
Theorem array_decode_encode (l t r b f m k : Z) :
  in_uint16 l -> in_uint16 t -> in_uint16 r -> in_uint16 b ->
  in_uint16 f -> in_uint16 m -> k = 0 \/ k = 1 ->
  exists reg,
    region_from_array (mk_seq uint16 [l; t; r; b; f; m; k]) = Ok reg /\
    to_array reg = Ok [l; t; r; b; f; m; k].
Proof.
  intros Hl Ht Hr Hb Hf Hm Hk.
  rewrite region_from_array_seven. eexists. split; [reflexivity|].
  erewrite to_array_ints by reflexivity.
  unfold left, top, right, bottom, Rectangle.left, Rectangle.top,
    Rectangle.right, Rectangle.bottom; cbn [rect blank Rectangle.x Rectangle.y
    Rectangle.width Rectangle.height truthy].
  assert (Hadd : forall p q, in_uint16 q -> wrap16 (p + wrap16 (q - p)) = q).
  { intros p q Hq. unfold wrap16. rewrite Z.add_mod_idemp_r by lia.
    replace (p + (q - p)) with q by lia. apply Z.mod_small.
    unfold in_uint16 in Hq. lia. }
  rewrite !Hadd by assumption.
  rewrite (wrap16_small l), (wrap16_small t), (wrap16_small m) by assumption.
  rewrite !(wrap16_small f) by assumption.
  destruct Hk as [-> | ->]; reflexivity.
Qed.

Lemma array_decode_encode_witness :
  exists reg,
    region_from_array (mk_seq uint16 [9; 2; 4; 7; 65535; 0; 1]) = Ok reg /\
    to_array reg = Ok [9; 2; 4; 7; 65535; 0; 1].
Proof.
  apply (array_decode_encode 9 2 4 7 65535 0 1);
    vm_compute; intuition discriminate.
Defined.

End RegionArrayCodec.

(** ** Region: JSON records and the meta dictionary *)

Section RegionJsonCodec.

Import Region.

(** X18. [region_from_json] raises [KeyError] for the first of x, y, width
    and height, in this order, that the record lacks. *)
Theorem region_from_json_missing_coordinate (j : gmap string PyVal) (vx vy vw : Z) :
  (j !! "x"%string = None -> region_from_json j = Raise (KeyError "x")) /\
  (j !! "x"%string = Some (PyInt vx) -> j !! "y"%string = None ->
   region_from_json j = Raise (KeyError "y")) /\
  (j !! "x"%string = Some (PyInt vx) -> j !! "y"%string = Some (PyInt vy) ->
   j !! "width"%string = None ->
   region_from_json j = Raise (KeyError "width")) /\
  (j !! "x"%string = Some (PyInt vx) -> j !! "y"%string = Some (PyInt vy) ->
   j !! "width"%string = Some (PyInt vw) -> j !! "height"%string = None ->
   region_from_json j = Raise (KeyError "height")).
Proof.
  unfold region_from_json, getitem. repeat split.
  - intros Hx. rewrite Hx. reflexivity.
  - intros Hx Hy. rewrite Hx, Hy. reflexivity.
  - intros Hx Hy Hw. rewrite Hx, Hy, Hw. reflexivity.
  - intros Hx Hy Hw Hh. rewrite Hx, Hy, Hw, Hh. reflexivity.
Qed.

Lemma region_from_json_missing_coordinate_witness :
  region_from_json (delete "width"%string json_null_frame_number) =
  Raise (KeyError "width").
Proof.
  apply (proj1 (proj2 (proj2 (region_from_json_missing_coordinate
           (delete "width"%string json_null_frame_number) 1 2 0))));
    vm_compute; reflexivity.
Defined.

(** X19. [region_from_json] reads ten keys and no other: adding any other
    key to the record (an [id], [was_cropped] or [is_along_border], say)
    does not change what it returns, and every region it decodes has the
    defaults for these three attributes. *)
Theorem region_from_json_reads_ten_keys (j : gmap string PyVal) (k : string) (v : PyVal) :
  k ∉ ["frame_number"; "frameNumber"; "order"; "x"; "y"; "width"; "height";
       "mass"; "blank"; "pixel_variance"]%string ->
  region_from_json (<[k := v]> j) = region_from_json j /\
  (forall r, region_from_json j = Ok r ->
     id r = 0 /\ was_cropped r = false /\ is_along_border r = false).
Proof.
  intros Hk. split.
  - unfold region_from_json, getitem, dict_get.
    rewrite !lookup_insert_ne by (intros ->; apply Hk; set_solver).
    reflexivity.
  - intros r. unfold region_from_json, getitem.
    destruct (j !! "x"%string) as [[]|]; try discriminate.
    destruct (j !! "y"%string) as [[]|]; try discriminate.
    destruct (j !! "width"%string) as [[]|]; try discriminate.
    destruct (j !! "height"%string) as [[]|]; try discriminate.
    intros H. inversion H; subst. repeat split.
Qed.

Lemma region_from_json_reads_ten_keys_witness :
  region_from_json (<["id"%string := PyInt 7]> json_null_frame_number) =
  region_from_json json_null_frame_number /\
  (forall r, region_from_json json_null_frame_number = Ok r ->
     id r = 0 /\ was_cropped r = false /\ is_along_border r = false).
Proof.
  apply (region_from_json_reads_ten_keys json_null_frame_number "id" (PyInt 7)).
  repeat (apply not_elem_of_cons; split; [discriminate|]).
  apply not_elem_of_nil.
Defined.

(** The dictionary of a region whose variance rounds to [pv]. *)
Lemma meta_dictionary_rounded (r : Region.t) (pv : PyVal) :
  py_round2 (pixel_variance r) = Ok pv ->
  meta_dictionary r =
  Ok (<["pixel_variance"%string := pv]>
      (<["x"%string := PyInt (x r)]> (<["y"%string := PyInt (y r)]>
      (<["width"%string := PyInt (width r)]>
      (<["height"%string := PyInt (height r)]>
      (<["mass"%string := mass r]>
      (<["frame_number"%string := frame_number r]>
      (<["pixel_variance"%string := pixel_variance r]>
      (<["blank"%string := blank r]> ∅))))))))).
Proof. intros H. unfold meta_dictionary. rewrite H. reflexivity. Qed.

(** X20. Saving a region with [meta_dictionary] and decoding the dictionary
    with [region_from_json] gives the region back with its variance rounded
    and with [id], [was_cropped] and [is_along_border] reset to their
    defaults: these three are not saved. *)
Theorem meta_dictionary_then_region_from_json (r : Region.t) (pv : PyVal) :
  py_round2 (pixel_variance r) = Ok pv ->
  exists d,
    meta_dictionary r = Ok d /\
    region_from_json d =
    Ok (mk (rect r) (mass r) (frame_number r) pv
           default_id default_was_cropped (blank r) default_is_along_border).
Proof.
  intros Hpv. rewrite (meta_dictionary_rounded r pv Hpv).
  eexists. split; [reflexivity|].
  erewrite (region_from_json_decodes _ (x r) (y r) (width r) (height r))
    by (vm_compute; reflexivity).
  unfold x, y, width, height.
  destruct r as [[rx ry rw rh] ms fn pvar i wc bl ab].
  cbn [rect mass frame_number blank Rectangle.x Rectangle.y Rectangle.width
       Rectangle.height].
  destruct fn; vm_compute; reflexivity.
Qed.

Lemma meta_dictionary_then_region_from_json_witness :
  let r := mk (Rectangle.mk 1 2 3 4) (PyInt 9) PyNone (PyFloat (1 # 8)) 5 true
              (PyBool true) true in
  exists d,
    meta_dictionary r = Ok d /\
    region_from_json d =
    Ok (mk (Rectangle.mk 1 2 3 4) (PyInt 9) PyNone
           (PyFloat (inject_Z 12 / 100)) 0 false (PyBool true) false).
Proof.
  apply (meta_dictionary_then_region_from_json
           (mk (Rectangle.mk 1 2 3 4) (PyInt 9) PyNone (PyFloat (1 # 8)) 5 true
               (PyBool true) true)
           (PyFloat (inject_Z 12 / 100))).
  reflexivity.
Defined.

(** X21. After [calculate_variance] ran without a previous buffer, the
    region cannot be saved: [meta_dictionary] raises [TypeError], the
    variance being [None]. *)
Theorem meta_dictionary_after_first_frame (r r' : Region.t) (filtered : ndarray) :
  calculate_variance r filtered None = Ok r' ->
  meta_dictionary r' = Raise TypeError.
Proof.
  unfold calculate_variance.
  destruct (shape filtered) as [h w].
  destruct ((w =? width r) && (h =? height r)); simpl; [|discriminate].
  intros H. inversion H; subst. reflexivity.
Qed.

Lemma meta_dictionary_after_first_frame_witness :
  let r := new 3 4 2 1 in
  let filtered := mk_ndarray (1, 2) [5 # 1; 1 # 1]%Q in
  calculate_variance r filtered None = Ok (set_pixel_variance r PyNone) /\
  meta_dictionary (set_pixel_variance r PyNone) = Raise TypeError.
Proof.
  split; [reflexivity|].
  apply (meta_dictionary_after_first_frame (new 3 4 2 1)
           (set_pixel_variance (new 3 4 2 1) PyNone)
           (mk_ndarray (1, 2) [5 # 1; 1 # 1]%Q)).
  reflexivity.
Defined.


End RegionJsonCodec.

(** ** Region: buffers, their shape and their variance *)

(** The module-level function when there is a previous buffer. *)
Lemma calculate_variance_with_previous (filtered prev : ndarray) :
  calculate_variance filtered (Some prev) =
  (delta_frame ← np_abs_sub filtered prev;
   v ← np_var delta_frame;
   mret (PyFloat v)).
Proof. reflexivity. Qed.

Section RegionVariance.

Import Region.


Lemma Qsum_zero (l : list Q) : Forall (fun q => q == 0)%Q l -> (Qsum l == 0)%Q.
Proof.
  induction 1 as [|q l Hq _ IH]; simpl.
  - reflexivity.
  - cbv beta in Hq. rewrite Hq, IH. reflexivity.
Qed.


Lemma np_mean_zero (l : list Q) : Forall (fun q => q == 0)%Q l -> (np_mean l == 0)%Q.
Proof.
  intros H. unfold np_mean, Qdiv. rewrite (Qsum_zero l H). ring.
Qed.

Lemma square_nonneg (a : Q) : (0 <= a * a)%Q.
Proof.
  destruct a as [n d]. unfold Qle, Qmult; simpl. nia.
Qed.


Lemma deviations_zero (m : Q) (l : list Q) :
  (m == 0)%Q -> Forall (fun q => q == 0)%Q l ->
  Forall (fun q => q == 0)%Q (map (fun p => ((p - m) * (p - m))%Q) l).
Proof.
  intros Hm. induction 1 as [|p l Hp _ IH]; simpl; constructor; [|exact IH].
  cbv beta in Hp |- *. rewrite Hp, Hm. ring.
Qed.

(** The absolute difference of a buffer with itself is zero everywhere. *)
Lemma abs_sub_self (l : list Q) :
  Forall (fun q => q == 0)%Q (zip_with (fun p q => Qabs (p - q)) l l).
Proof.
  induction l as [|p l IH]; simpl; constructor; [|exact IH].
  assert (H : (p - p == 0)%Q) by ring.
  change (Qabs (p - p) == 0)%Q. rewrite H. reflexivity.
Qed.

(** X22. A buffer of another shape than the region makes [calculate_mass]
    fail on its assertion, before anything is computed or stored. *)
Theorem calculate_mass_rejects_other_shapes (r : Region.t) (filtered : ndarray)
    (threshold : Q) :
  shape filtered <> (height r, width r) ->
  calculate_mass r filtered threshold =
  Raise (AssertionError "calculating variance on incorrectly sized filtered").
Proof.
  intros Hs. unfold calculate_mass.
  destruct (shape filtered) as [h w].
  destruct (Z.eqb_spec w (width r)) as [->|Hw]; [|reflexivity].
  destruct (Z.eqb_spec h (height r)) as [->|Hh]; [|reflexivity].
  contradiction.
Qed.

Lemma calculate_mass_rejects_other_shapes_witness :
  calculate_mass (new 0 0 10 5) (mk_ndarray (5, 11) (repeat 0%Q 55)) (3 # 1) =
  Raise (AssertionError "calculating variance on incorrectly sized filtered").
Proof.
  apply (calculate_mass_rejects_other_shapes (new 0 0 10 5)
           (mk_ndarray (5, 11) (repeat 0%Q 55)) (3 # 1)).
  discriminate.
Defined.

(** X23. A buffer of another shape than the region makes
    [calculate_variance] fail on its assertion, with or without a previous
    buffer; [pixel_variance] is not assigned. *)
Theorem calculate_variance_rejects_other_shapes (r : Region.t) (filtered : ndarray)
    (prev_filtered : option ndarray) :
  shape filtered <> (height r, width r) ->
  calculate_variance r filtered prev_filtered =
  Raise (AssertionError "calculating variance on incorrectly sized filtered").
Proof.
  intros Hs. unfold calculate_variance.
  destruct (shape filtered) as [h w].
  destruct (Z.eqb_spec w (width r)) as [->|Hw]; [|reflexivity].
  destruct (Z.eqb_spec h (height r)) as [->|Hh]; [|reflexivity].
  contradiction.
Qed.

Lemma calculate_variance_rejects_other_shapes_witness :
  calculate_variance (new 0 0 10 5) (mk_ndarray (5, 11) (repeat 0%Q 55)) None =
  Raise (AssertionError "calculating variance on incorrectly sized filtered").
Proof.
  apply (calculate_variance_rejects_other_shapes (new 0 0 10 5)
           (mk_ndarray (5, 11) (repeat 0%Q 55)) None).
  discriminate.
Defined.



(** X25. Given twice the same non-empty buffer of the region's shape,
    [calculate_variance] stores a variance of zero. *)
Theorem calculate_variance_of_same_frame (r : Region.t) (filtered : ndarray) :
  shape filtered = (height r, width r) ->
  pixels filtered <> [] ->
  exists v,
    calculate_variance r filtered (Some filtered) =
    Ok (set_pixel_variance r (PyFloat v)) /\ (v == 0)%Q.
Proof.
  intros Hs Hne.
  unfold calculate_variance. rewrite calculate_variance_with_previous.
  unfold np_abs_sub.
  rewrite Hs, !Z.eqb_refl. simpl.
  destruct (decide ((height r, width r) = (height r, width r))); [|congruence].
  simpl. unfold np_var.
  pose proof (abs_sub_self (pixels filtered)) as Hz.
  destruct (zip_with _ (pixels filtered) (pixels filtered)) as [|p l] eqn:E.
  - destruct (pixels filtered); [congruence|discriminate].
  - simpl. eexists. split; [reflexivity|].
    apply np_mean_zero. apply (deviations_zero _ (p :: l)); [|exact Hz].
    apply np_mean_zero. exact Hz.
Qed.

Lemma calculate_variance_of_same_frame_witness :
  let r := new 0 0 2 1 in
  let filtered := mk_ndarray (1, 2) [5 # 1; 1 # 1]%Q in
  exists v,
    calculate_variance r filtered (Some filtered) =
    Ok (set_pixel_variance r (PyFloat v)) /\ (v == 0)%Q.
Proof.
  apply (calculate_variance_of_same_frame (new 0 0 2 1)
           (mk_ndarray (1, 2) [5 # 1; 1 # 1]%Q)).
  - reflexivity.
  - discriminate.
Defined.

End RegionVariance.

(** ** Rectangle: the sub-image of an image *)

Section SubImage.

Lemma slice_index_inside (n i : Z) : 0 <= i <= n -> slice_index n i = i.
Proof.
  intros H. unfold slice_index.
  destruct (Z.ltb_spec i 0); lia.
Qed.

(** A negative index that still falls on the axis counts from its end. *)
Lemma slice_index_negative (n i : Z) : - n <= i < 0 -> slice_index n i = i + n.
Proof.
  intros H. unfold slice_index.
  destruct (Z.ltb_spec i 0); lia.
Qed.

(** The shape of a sub-image, from the two slices. *)
Lemma subimage_shape (R : Rectangle.t) (image : ndarray) :
  shape (Rectangle.subimage R image) =
  (Z.max 0 (slice_index (fst (shape image)) (Rectangle.top R + Rectangle.height R)
            - slice_index (fst (shape image)) (Rectangle.top R)),
   Z.max 0 (slice_index (snd (shape image)) (Rectangle.left R + Rectangle.width R)
            - slice_index (snd (shape image)) (Rectangle.left R))).
Proof.
  unfold Rectangle.subimage, slice_2d.
  destruct (shape image) as [rows cols]. reflexivity.
Qed.

(** Rows of [n_cols] items each, cut out of a list that is long enough. *)
Lemma length_rows (pix : list Q) (cols c0 n_cols : Z) (rs : list Z) :
  0 <= c0 -> 0 <= n_cols -> c0 + n_cols <= cols ->
  Forall (fun r => 0 <= r /\ (r + 1) * cols <= Z.of_nat (length pix)) rs ->
  length (r ← rs; take (Z.to_nat n_cols) (drop (Z.to_nat (r * cols + c0)) pix)) =
  (length rs * Z.to_nat n_cols)%nat.
Proof.
  intros Hc0 Hn Hc. induction 1 as [|r rs [Hr Hlen] _ IH].
  - reflexivity.
  - change (length (take (Z.to_nat n_cols) (drop (Z.to_nat (r * cols + c0)) pix) ++
                    (r' ← rs; take (Z.to_nat n_cols)
                                   (drop (Z.to_nat (r' * cols + c0)) pix)))
            = (S (length rs) * Z.to_nat n_cols)%nat).
    rewrite length_app, IH, length_take, length_drop. nia.
Qed.

(** X26. For a rectangle of non-negative width and height that lies within
    the image, the sub-image has the rectangle's shape (height, width) and,
    when the image holds as many pixels as its shape says, height times
    width pixels. *)
Theorem subimage_of_inner_rectangle (R : Rectangle.t) (image : ndarray) :
  0 <= Rectangle.top R -> 0 <= Rectangle.height R ->
  Rectangle.bottom R <= fst (shape image) ->
  0 <= Rectangle.left R -> 0 <= Rectangle.width R ->
  Rectangle.right R <= snd (shape image) ->
  shape (Rectangle.subimage R image) = (Rectangle.height R, Rectangle.width R) /\
  (Z.of_nat (length (pixels image)) = fst (shape image) * snd (shape image) ->
   Z.of_nat (length (pixels (Rectangle.subimage R image))) =
   Rectangle.height R * Rectangle.width R).
Proof.
  intros Ht Hh Hb Hl Hw Hr.
  unfold Rectangle.bottom, Rectangle.right, Rectangle.top, Rectangle.left in *.
  split.
  - rewrite subimage_shape.
    unfold Rectangle.top, Rectangle.left.
    rewrite !slice_index_inside by lia. f_equal; lia.
  - intros Hpix. unfold Rectangle.subimage, slice_2d.
    destruct (shape image) as [rows cols]. simpl in Hb, Hr, Hpix.
    unfold Rectangle.top, Rectangle.left.
    rewrite !slice_index_inside by lia. cbn [pixels].
    replace (Z.max 0 (Rectangle.y R + Rectangle.height R - Rectangle.y R))
      with (Rectangle.height R) by lia.
    replace (Z.max 0 (Rectangle.x R + Rectangle.width R - Rectangle.x R))
      with (Rectangle.width R) by lia.
    rewrite length_rows; try lia.
    + rewrite length_seqZ. nia.
    + apply Forall_seqZ. intros r Hrange. split; [lia|]. nia.
Qed.

Lemma subimage_of_inner_rectangle_witness :
  let image := mk_ndarray (3, 4) (map inject_Z [0; 1; 2; 3; 10; 11; 12; 13; 20; 21; 22; 23]) in
  let R := Rectangle.mk 1 1 2 2 in
  pixels (Rectangle.subimage R image) = map inject_Z [11; 12; 21; 22] /\
  shape (Rectangle.subimage R image) = (Rectangle.height R, Rectangle.width R) /\
  (Z.of_nat (length (pixels image)) = fst (shape image) * snd (shape image) ->
   Z.of_nat (length (pixels (Rectangle.subimage R image))) =
   Rectangle.height R * Rectangle.width R).
Proof.
  split; [reflexivity|].
  apply (subimage_of_inner_rectangle (Rectangle.mk 1 1 2 2)
           (mk_ndarray (3, 4)
              (map inject_Z [0; 1; 2; 3; 10; 11; 12; 13; 20; 21; 22; 23])));
    vm_compute; discriminate.
Defined.


(** X27. A rectangle that starts left of the image (by no more than the
    image's width) and reaches into it, and is no wider than the image, gets
    a sub-image without columns: the negative start counts from the right
    end of the row.  A region of positive width is then refused by
    [calculate_variance]. *)
Theorem subimage_across_left_edge_is_empty (r : Region.t) (image : ndarray)
    (prev : option ndarray) :
  - snd (shape image) <= Region.left r -> Region.left r < 0 ->
  0 <= Region.right r -> 0 < Region.width r <= snd (shape image) ->
  snd (shape (Region.subimage r image)) = 0 /\
  Region.calculate_variance r (Region.subimage r image) prev =
  Raise (AssertionError "calculating variance on incorrectly sized filtered").
Proof.
  intros Hl1 Hl2 Hr Hw.
  assert (Hcols : snd (shape (Region.subimage r image)) = 0).
  { unfold Region.subimage. rewrite subimage_shape. cbn [snd].
    unfold Region.left, Region.right, Region.width, Rectangle.right,
      Rectangle.left in *.
    rewrite (slice_index_negative _ (Rectangle.x (Region.rect r))) by lia.
    unfold slice_index.
    destruct (Z.ltb_spec (Rectangle.x (Region.rect r) + Rectangle.width (Region.rect r)) 0);
      lia. }
  split; [exact Hcols|].
  unfold Region.calculate_variance.
  destruct (shape (Region.subimage r image)) as [h w]. simpl in Hcols. subst w.
  destruct (Z.eqb_spec 0 (Region.width r)) as [Hz|Hz]; [lia|reflexivity].
Qed.

Lemma subimage_across_left_edge_is_empty_witness :
  let image := mk_ndarray (3, 4) (map inject_Z [0; 1; 2; 3; 10; 11; 12; 13; 20; 21; 22; 23]) in
  let r := Region.new (-1) 0 2 2 in
  Region.subimage r image = mk_ndarray (2, 0) [] /\
  snd (shape (Region.subimage r image)) = 0 /\
  Region.calculate_variance r (Region.subimage r image) None =
  Raise (AssertionError "calculating variance on incorrectly sized filtered").
Proof.
  split; [reflexivity|].
  apply (subimage_across_left_edge_is_empty (Region.new (-1) 0 2 2)
           (mk_ndarray (3, 4)
              (map inject_Z [0; 1; 2; 3; 10; 11; 12; 13; 20; 21; 22; 23])) None);
    vm_compute; intuition discriminate.
Defined.

(** X28. A rectangle of non-negative width that lies entirely left of the
    image, by no more than the image's width, gets the sub-image of the
    rectangle moved right by the image's width: both ends of the column
    slice are negative and count from the right end of the row. *)
Theorem subimage_left_of_image_wraps_around (R : Rectangle.t) (image : ndarray) :
  - snd (shape image) <= Rectangle.left R -> Rectangle.right R < 0 ->
  0 <= Rectangle.width R ->
  Rectangle.subimage R image =
  Rectangle.subimage (Rectangle.set_x R (Rectangle.x R + snd (shape image))) image.
Proof.
  intros Hl Hr Hw.
  unfold Rectangle.subimage, slice_2d.
  destruct (shape image) as [rows cols]. simpl in Hl |- *.
  unfold Rectangle.left, Rectangle.right, Rectangle.top, Rectangle.set_x in *;
    cbn [Rectangle.x Rectangle.y Rectangle.width Rectangle.height].
  rewrite (slice_index_negative cols (Rectangle.x R)) by lia.
  rewrite (slice_index_negative cols (Rectangle.x R + Rectangle.width R)) by lia.
  rewrite (slice_index_inside cols (Rectangle.x R + cols)) by lia.
  rewrite (slice_index_inside cols (Rectangle.x R + cols + Rectangle.width R)) by lia.
  replace (Rectangle.x R + cols + Rectangle.width R)
    with (Rectangle.x R + Rectangle.width R + cols) by lia.
  reflexivity.
Qed.

Lemma subimage_left_of_image_wraps_around_witness :
  let image := mk_ndarray (3, 4) (map inject_Z [0; 1; 2; 3; 10; 11; 12; 13; 20; 21; 22; 23]) in
  let R := Rectangle.mk (-3) 0 2 1 in
  pixels (Rectangle.subimage R image) = map inject_Z [1; 2] /\
  Rectangle.subimage R image =
  Rectangle.subimage (Rectangle.set_x R (Rectangle.x R + snd (shape image))) image.
Proof.
  split; [reflexivity|].
  apply (subimage_left_of_image_wraps_around (Rectangle.mk (-3) 0 2 1)
           (mk_ndarray (3, 4)
              (map inject_Z [0; 1; 2; 3; 10; 11; 12; 13; 20; 21; 22; 23])));
    vm_compute; first [reflexivity | discriminate].
Defined.

End SubImage.

(** ** Distances *)

Section Distances.

Lemma square_zero (a : Q) : (a * a == 0)%Q -> (a == 0)%Q.
Proof. intros H. destruct (Qmult_integral _ _ H); assumption. Qed.

Lemma sum_of_squares_zero (a b : Q) :
  (a * a + b * b == 0)%Q <-> (a == 0 /\ b == 0)%Q.
Proof.
  split.
  - intros H.
    pose proof (square_nonneg a) as Ha. pose proof (square_nonneg b) as Hb.
    assert (Ha0 : (a * a == 0)%Q).
    { apply Qle_antisym; [|exact Ha].
      rewrite <- H. rewrite <- (Qplus_0_r (a * a)) at 1.
      apply Qplus_le_compat; [apply Qle_refl | exact Hb]. }
    assert (Hb0 : (b * b == 0)%Q).
    { rewrite Ha0, Qplus_0_l in H. exact H. }
    split; apply square_zero; assumption.
  - intros [Ha Hb]. rewrite Ha, Hb. reflexivity.
Qed.

(** X29. [eucl_distance] is the squared distance: it does not depend on the
    order of the two points, is never negative, and is zero exactly when the
    points have equal coordinates. *)
Theorem eucl_distance_facts (p q : Q * Q) :
  (eucl_distance p q == eucl_distance q p)%Q /\
  (0 <= eucl_distance p q)%Q /\
  ((eucl_distance p q == 0)%Q <-> (fst p == fst q /\ snd p == snd q)%Q).
Proof.
  unfold eucl_distance; cbv zeta. split; [ring|]. split.
  - replace 0%Q with (0 + 0)%Q by reflexivity.
    apply Qplus_le_compat; apply square_nonneg.
  - rewrite sum_of_squares_zero.
    split; intros [H1 H2]; split.
    + rewrite <- (Qplus_0_l (fst q)), <- H1. ring.
    + rewrite <- (Qplus_0_l (snd q)), <- H2. ring.
    + rewrite H1. ring.
    + rewrite H2. ring.
Qed.

(** X30. [average_distance] returns three terms.  The first is the squared
    distance between the top-left corners and the third the squared
    distance between the bottom-right corners, both integers that do not
    depend on which region is asked; the middle term is never negative. *)
Theorem average_distance_corner_terms (A B : Region.t) :
  exists d0 d1 d2,
    Region.average_distance A B = [d0; d1; d2] /\
    (d0 == inject_Z ((Region.x B - Region.x A) * (Region.x B - Region.x A) +
                     (Region.y B - Region.y A) * (Region.y B - Region.y A)))%Q /\
    (d2 == inject_Z ((Region.right B - Region.right A) * (Region.right B - Region.right A) +
                     (Region.bottom B - Region.bottom A) * (Region.bottom B - Region.bottom A)))%Q /\
    (0 <= d1)%Q /\
    exists e0 e1 e2,
      Region.average_distance B A = [e0; e1; e2] /\ (e0 == d0)%Q /\ (e2 == d2)%Q.
Proof.
  do 3 eexists. split; [apply average_distance_terms|].
  rewrite !py_int_inject_Z. unfold eucl_distance; cbn [fst snd].
  split; [|split; [|split]].
  - unfold Z.sub. rewrite !inject_Z_plus, !inject_Z_mult, !inject_Z_plus, !inject_Z_opp.
    ring.
  - unfold Z.sub. rewrite !inject_Z_plus, !inject_Z_mult, !inject_Z_plus, !inject_Z_opp.
    ring.
  - replace 0%Q with (0 + 0)%Q by reflexivity.
    apply Qplus_le_compat; apply square_nonneg.
  - do 3 eexists. split; [apply average_distance_terms|].
    rewrite !py_int_inject_Z. unfold eucl_distance; cbn [fst snd]. split; ring.
Qed.

End Distances.
